(** * Import-Export-Agent: the record synthesis and aggregation stage

    A shallow embedding of [utils.py], [models.py] and [services.py]
    (normalize_country_name, ParsedQuery, TradeDataRecord,
    PerceiveAgent.parse_query, ActAgent.fetch_data,
    ActAgent._simulate_scrape_from_url, ActAgent.generate_recommendations,
    ActAgent.export_to_excel) and the properties of the specification
    that are settled on it.

    Conventions of the embedding:
    - a Python [str] is a [string] holding its UTF-8 bytes (comparison of
      the bytes is comparison of the code points);
    - [Optional[T]] is [option T], [None] is [None];
    - a Python [float] is a binary64 number ([float], with its
      infinities and NaN); products and quotients are the IEEE ones;
    - a raised exception is a value of [result];
    - the interpreter's [hash] (fixed within a process), [urlparse] and
      the random generator, the replies of the two network collaborators,
      and the summation routine of pandas are inputs. *)

From Stdlib Require Import ZArith QArith Qround String Ascii List Bool Lia.
From Stdlib Require Import Sorting.Sorted Permutation DecimalString OrderedTypeEx.
From Stdlib Require Import Floats.PrimFloat.
From Stdlib Require Floats.SpecFloat Floats.FloatOps.
From stdpp Require Import base gmap strings list fin_maps.

Set Warnings "-register-all,-clear-no-such-hyp,-inexact-float".

Local Open Scope string_scope.
Local Open Scope Z_scope.

(** ** Python strings *)

Module Str.

Definition is_ascii (c : ascii) : bool := (N_of_ascii c <? 128)%N.

(** [A]..[Z] become [a]..[z]; every other ASCII character is kept. *)
Definition lower_ascii (c : ascii) : ascii :=
  let n := N_of_ascii c in
  if ((65 <=? n) && (n <=? 90))%N then ascii_of_N (n + 32) else c.

Fixpoint all_ascii (s : string) : bool :=
  match s with
  | EmptyString => true
  | String c s' => is_ascii c && all_ascii s'
  end.

Fixpoint map_lower (s : string) : string :=
  match s with
  | EmptyString => EmptyString
  | String c s' => String (lower_ascii c) (map_lower s')
  end.

Section Lower.
(** [str.lower] on a string with a character outside ASCII follows the
    interpreter's Unicode tables, which are not part of the program. *)
Variable unicode_lower : string -> string.

Definition lower (s : string) : string :=
  if all_ascii s then map_lower s else unicode_lower s.
End Lower.

(** [sub in s] *)
Fixpoint contains (sub s : string) : bool :=
  String.prefix sub s ||
  match s with
  | EmptyString => false
  | String _ s' => contains sub s'
  end.

(** truthiness of a string *)
Definition truthy (s : string) : bool :=
  match s with EmptyString => false | _ => true end.

Definition opt_truthy (o : option string) : bool :=
  match o with Some s => truthy s | None => false end.

(** [a or b] on an optional string and a default *)
Definition or_else (o : option string) (d : string) : string :=
  match o with
  | Some s => if truthy s then s else d
  | None => d
  end.

End Str.

(** ** Python floats *)

Module Float.
Import SpecFloat FloatOps.

(** [float(z)]: the float nearest to an integer *)
Definition of_Z (z : Z) : float :=
  SF2Prim (binary_normalize prec emax z 0 false).

Definition exact (z : Z) : spec_float :=
  match z with
  | Z0 => S754_zero false
  | Zpos p => S754_finite false p 0
  | Zneg p => S754_finite true p 0
  end.

(** the float nearest to [n / d] *)
Definition of_ratio (n : Z) (d : positive) : float :=
  SF2Prim (SFdiv prec emax (exact n) (exact (Zpos d))).

(** the float a decimal literal is read as *)
Definition of_Q (q : Q) : float := of_ratio (Qnum q) (Qden q).

(** [m * 2 ^ e] *)
Definition scale (m : positive) (e : Z) : Q :=
  match e with
  | Z0 => inject_Z (Zpos m)
  | Zpos p => inject_Z (Zpos m * 2 ^ Zpos p)
  | Zneg p => Zpos m # 2 ^ p
  end.

(** the points of the extended real line *)
Inductive extended : Type :=
| NegInf
| Finite (q : Q)
| PosInf.

(** the point a float stands for; NaN stands for none *)
Definition number (x : float) : option extended :=
  match Prim2SF x with
  | S754_nan => None
  | S754_infinity s => Some (if s then NegInf else PosInf)
  | S754_zero _ => Some (Finite 0)
  | S754_finite s m e => Some (Finite (if s then - scale m e else scale m e))
  end.

Definition extended_leb (a b : extended) : bool :=
  match a, b with
  | NegInf, _ | _, PosInf => true
  | Finite x, Finite y => Qle_bool x y
  | _, _ => false
  end.

(** [math.isnan(x)] *)
Definition is_nan (x : float) : bool :=
  match number x with None => true | Some _ => false end.

(** [x <= y]: false when either is NaN *)
Definition leb (x y : float) : bool :=
  match number x, number y with
  | Some a, Some b => extended_leb a b
  | _, _ => false
  end.

End Float.

(** ** utils.py *)

Module Utils.

Definition country_map : gmap string string :=
  <["usa" := "United States"]>
  (<["india" := "India"]>
  (<["germany" := "Germany"]>
  (<["uk" := "United Kingdom"]>
  (<["united kingdom" := "United Kingdom"]>
  (<["china" := "China"]>
  (<["japan" := "Japan"]>
  (<["eu" := "European Union"]> ∅))))))).

Section Normalizer.
Variable unicode_lower : string -> string.

Definition normalize_country_name (country_name : string) : string :=
  default country_name (country_map !! Str.lower unicode_lower country_name).
End Normalizer.

End Utils.

(** ** models.py *)

Module Models.

(** A value held by a field of a record, as [model_dump] returns it. *)
Inductive value : Type :=
| VStr (s : string)
| VFloat (x : float)
| VInt (z : Z).

Module ParsedQuery.
Record t : Type := mk {
  hsn_code : option string;
  product_name : option string;
  country : option string;
  intent : option string;
  keywords : list string
}.

(** [ParsedQuery()] *)
Definition empty : t := mk None None None None [].
End ParsedQuery.

Module TradeDataRecord.
Record t : Type := mk {
  country : option string;
  volume_usd : option float;
  volume_unit : option float;
  unit : option string;
  year : option Z;
  source : option string;
  hscode : option string;
  product_description : option string;
  hs_product_description : option string;
  shipper_name : option string;
  consignee_name : option string;
  std_quantity : option float;
  std_unit : option string;
  country_of_destination : option string;
  package_type : option string;
  country_of_origin : option string;
  quantity : option float;
  bill_of_lading_no : option string;
  consignee_address : option string;
  supplier_address : option string;
  container_teu : option float;
  port_of_origin : option string;
  port_of_destination : option string;
  port_of_delivery : option string;
  gross_weight : option float;
  measurement : option string;
  freight_term : option string;
  forwarder_name : option string;
  declarant_name : option string;
  notify_party_address : option string;
  declarant_name_2 : option string;
  marks_number : option string;
  contact_number_booking : option string;
  contact_email_booking : option string
}.

(** [TradeDataRecord()] *)
Definition empty : t :=
  mk None None None None None None None None None None None None None None None None None None None None None None None None None None None None None None None None None None.

Record FieldInfo : Type := field { name : string; alias : option string }.

(** [TradeDataRecord.model_fields], in declaration order *)
Definition model_fields : list FieldInfo :=
  [ field "country" None;
    field "volume_usd" None;
    field "volume_unit" None;
    field "unit" None;
    field "year" None;
    field "source" None;
    field "hscode" (Some "HS Code");
    field "product_description" (Some "Product Description");
    field "hs_product_description" (Some "HS Product Description");
    field "shipper_name" (Some "Shipper Name");
    field "consignee_name" (Some "Consignee Name");
    field "std_quantity" (Some "Standard Quantity");
    field "std_unit" (Some "Standard Unit");
    field "country_of_destination" (Some "Country of Destination");
    field "package_type" (Some "Package Type");
    field "country_of_origin" (Some "Country of Origin");
    field "quantity" (Some "Quantity");
    field "bill_of_lading_no" (Some "Bill of Lading No");
    field "consignee_address" (Some "Consignee Address");
    field "supplier_address" (Some "Supplier Address");
    field "container_teu" (Some "Container TEU");
    field "port_of_origin" (Some "Port of Origin");
    field "port_of_destination" (Some "Port of Destination");
    field "port_of_delivery" (Some "Port of Delivery");
    field "gross_weight" (Some "Gross Weight");
    field "measurement" (Some "Measurement");
    field "freight_term" (Some "Freight Term");
    field "forwarder_name" (Some "Forwarder Name");
    field "declarant_name" (Some "Declarant Name");
    field "notify_party_address" (Some "Notify Party Address");
    field "declarant_name_2" (Some "Declarant Name 2");
    field "marks_number" (Some "Marks Number");
    field "contact_number_booking" (Some "Contact Number Booking");
    field "contact_email_booking" (Some "Contact Email Booking") ].

(** the values of the fields, in declaration order *)
Definition values (r : t) : list (option value) :=
  [ VStr <$> country r;
    VFloat <$> volume_usd r;
    VFloat <$> volume_unit r;
    VStr <$> unit r;
    VInt <$> year r;
    VStr <$> source r;
    VStr <$> hscode r;
    VStr <$> product_description r;
    VStr <$> hs_product_description r;
    VStr <$> shipper_name r;
    VStr <$> consignee_name r;
    VFloat <$> std_quantity r;
    VStr <$> std_unit r;
    VStr <$> country_of_destination r;
    VStr <$> package_type r;
    VStr <$> country_of_origin r;
    VFloat <$> quantity r;
    VStr <$> bill_of_lading_no r;
    VStr <$> consignee_address r;
    VStr <$> supplier_address r;
    VFloat <$> container_teu r;
    VStr <$> port_of_origin r;
    VStr <$> port_of_destination r;
    VStr <$> port_of_delivery r;
    VFloat <$> gross_weight r;
    VStr <$> measurement r;
    VStr <$> freight_term r;
    VStr <$> forwarder_name r;
    VStr <$> declarant_name r;
    VStr <$> notify_party_address r;
    VStr <$> declarant_name_2 r;
    VStr <$> marks_number r;
    VStr <$> contact_number_booking r;
    VStr <$> contact_email_booking r ].

(** the key a field is dumped under: its alias when there is one and
    [by_alias] is set, its name otherwise *)
Definition label (by_alias : bool) (f : FieldInfo) : string :=
  if by_alias then default (name f) (alias f) else name f.

Definition exclude_none (l : list (string * option value))
  : list (string * value) :=
  omap (fun kv => pair (fst kv) <$> snd kv) l.

(** [r.model_dump(by_alias=by_alias, exclude_none=True)] *)
Definition model_dump (by_alias : bool) (r : t) : list (string * value) :=
  exclude_none (zip (label by_alias <$> model_fields) (values r)).
End TradeDataRecord.

Record Recommendation : Type := mkRecommendation {
  title : string;
  description : string
}.

End Models.

(** ** Python numbers and their formatting *)

Module Num.

(** [str(n)] of an integer *)
Definition str_of_Z (z : Z) : string :=
  DecimalString.NilZero.string_of_int (Z.to_int z).

(** the integer nearest to a rational, the even one of two that are
    equally near *)
Definition round_half_even (q : Q) : Z :=
  let f := Qfloor q in
  match (q - inject_Z f ?= 1 # 2)%Q with
  | Lt => f
  | Gt => f + 1
  | Eq => if Z.even f then f else f + 1
  end.

(** [round(x, 2)]: the float nearest to the decimal with two places
    that is nearest to [x] *)
Definition round2 (x : float) : float :=
  match FloatOps.Prim2SF x with
  | SpecFloat.S754_finite s m e =>
      let hundredths := round_half_even (Float.scale m e * 100)%Q in
      let r := Float.of_ratio hundredths 100 in
      if s then PrimFloat.opp r else r
  | _ => x
  end.

(** the digits of a natural number in groups of three, separated by
    commas, as [format(n, ",")] prints them *)
Fixpoint group3 (digits : list ascii) : list ascii :=
  match digits with
  | a :: b :: c :: ((_ :: _) as rest) => a :: b :: c :: ","%char :: group3 rest
  | _ => digits
  end.

Definition thousands (n : Z) : string :=
  string_of_list_ascii
    (rev (group3 (rev (list_ascii_of_string (str_of_Z n))))).

Definition two_digits (n : Z) : string :=
  ((if (n <? 10)%Z then "0" else EmptyString) ++ str_of_Z n)%string.

Definition sign (negative : bool) : string :=
  if negative then "-" else EmptyString.

(** [f"{x:,.2f}"] *)
Definition format_money (x : float) : string :=
  match FloatOps.Prim2SF x with
  | SpecFloat.S754_nan => "nan"
  | SpecFloat.S754_infinity s => (sign s ++ "inf")%string
  | SpecFloat.S754_zero s => (sign s ++ "0.00")%string
  | SpecFloat.S754_finite s m e =>
      let cents := round_half_even (Float.scale m e * 100)%Q in
      (sign s ++ thousands (cents / 100)%Z ++ "."
         ++ two_digits (cents mod 100)%Z)%string
  end.

End Num.

(** ** The process the agents run in *)

Module Runtime.

(** What a call can change: the cache of links held by the [ActAgent]
    instance, and the random generator, given by the raw draws it will
    produce from here on. *)
Record world : Type := mkWorld {
  scraped_data_cache : gmap string bool;
  entropy : nat -> N
}.

Definition M (A : Type) : Type := world -> A * world.

#[export] Instance M_ret : MRet M := fun A (x : A) w => (x, w).

#[export] Instance M_bind : MBind M :=
  fun A B (k : A -> M B) (m : M A) w => let r := m w in k (fst r) (snd r).

Definition draw : M N :=
  fun w => (entropy w O,
            mkWorld (scraped_data_cache w) (fun n => entropy w (S n))).

(** [random.random()]: a multiple of 2^-53 in [0, 1), a float that is
    given here by the rational it is *)
Definition random : M Q :=
  n ← draw; mret (Z.of_N (n mod 2 ^ 53) # 2 ^ 53).

(** [random.choice([x] + xs)] *)
Definition choice {A : Type} (x : A) (xs : list A) : M A :=
  n ← draw;
  mret (nth (N.to_nat (n mod N.of_nat (S (length xs)))) (x :: xs) x).

(** [random.randint(a, b)] *)
Definition randint (a b : Z) : M Z :=
  n ← draw; mret (a + Z.of_N n mod (b - a + 1)).

(** [link in self.scraped_data_cache] *)
Definition cached (link : string) : M bool :=
  fun w => (bool_decide (is_Some (scraped_data_cache w !! link)), w).

(** [self.scraped_data_cache[link] = True] *)
Definition cache_put (link : string) : M () :=
  fun w => (tt, mkWorld (<[link := true]> (scraped_data_cache w)) (entropy w)).

End Runtime.

(** ** services.py: ActAgent.fetch_data and _simulate_scrape_from_url *)

Module Synthesizer.
Import Models Runtime.
Module T := TradeDataRecord.
Module P := ParsedQuery.

(** one result of the search collaborator: [result.get('link')] and
    [result.get('title')] *)
Record SearchResult : Type := mkResult {
  link : option string;
  result_title : option string
}.

Definition possible_partner_countries : list string :=
  ["USA"; "Germany"; "China"; "Japan"; "Brazil"; "Canada"; "Mexico";
   "France"; "UK"].

Section Synthesis.
(** supplied by the interpreter and the network: the Unicode part of
    [str.lower], the string [hash] of the process (the same function
    from the start of the interpreter to its end), [urlparse(url).netloc]
    for the links [urlparse] accepts, and the search collaborator *)
Variable unicode_lower : string -> string.
Variable hash : string -> Z.
Variable netloc : string -> string.
Variable perform_google_search : string -> list SearchResult.

Local Abbreviation normalize_country_name :=
  (Utils.normalize_country_name unicode_lower).

(** [normalize_country_name(parsed_query.country) if parsed_query.country
    else None] *)
Definition target_reporting_country_normalized (parsed_query : P.t)
  : option string :=
  match P.country parsed_query with
  | Some c => if Str.truthy c then Some (normalize_country_name c) else None
  | None => None
  end.

(** the test that makes the loop [continue] *)
Definition is_reporting_country (target : option string) (partner : string)
  : bool :=
  Str.opt_truthy target
  && bool_decide (Some (normalize_country_name partner) = target).

(** [100000 + (abs(hash(partner_country_name + query)) % 100000)] *)
Definition base_volume (partner_country_name query : string) : Z :=
  100000 + Z.abs (hash (partner_country_name ++ query)%string) mod 100000.

(** [volume] after the two tests on [intent], as a float: the integer
    is multiplied by the float [1.2] or [0.8], and is left as it is when
    the intent is neither word *)
Definition scaled_volume (intent : option string) (base : Z) : float :=
  if bool_decide (intent = Some "import")
  then PrimFloat.mul (Float.of_Z base) 1.2%float
  else if bool_decide (intent = Some "export")
  then PrimFloat.mul (Float.of_Z base) 0.8%float
  else Float.of_Z base.

(** [random.choice([f(random.randint(a, b)), None])] *)
Definition numbered (a b : Z) (f : string -> string) : M (option string) :=
  n ← randint a b; choice (Some (f (Num.str_of_Z n))) [None].

(** [random.choice([f(random.choice([x] + xs)), None])] *)
Definition lettered (x : string) (xs : list string) (f : string -> string)
  : M (option string) :=
  s ← choice x xs; choice (Some (f s)) [None].

(** the body of the loop for a partner that is kept: the record built
    from [record_data], its draws in the order the dictionary display
    evaluates them *)
Definition make_record (url : string) (parsed_query : P.t)
    (target : option string) (partner_country_name : string) (volume : float)
  : M T.t :=
  let hscode_val := P.hsn_code parsed_query in
  let product_desc_val := P.product_name parsed_query in
  let intent := P.intent parsed_query in
  let export := bool_decide (intent = Some "export") in
  unit ← choice (Some "kg") [Some "units"; Some "tons"; None];
  r_hscode ← random;
  r_product ← random;
  hs_product_description ←
    choice (Some ("Description for HSN " ++ Str.or_else hscode_val "unknown")%string)
           [None];
  shipper_name ← numbered 100 999 (fun n => "Shipper_" ++ n ++ " Inc.")%string;
  consignee_name ← numbered 100 999 (fun n => "Consignee_" ++ n ++ " Co.")%string;
  std_quantity ←
    choice (Some (Num.round2 (PrimFloat.div volume 5000%float))) [None];
  std_unit ← choice (Some "Pieces") [Some "Pallets"; None];
  package_type ← choice (Some "Cartons") [Some "Pallets"; Some "Boxes"; None];
  quantity ←
    choice (Some (Num.round2 (PrimFloat.div volume 1000%float))) [None];
  bill_of_lading_no ← numbered 10000 99999 (fun n => "BL-" ++ n)%string;
  consignee_address ←
    choice (Some ("123 Main St, " ++ partner_country_name)%string) [None];
  supplier_address ←
    choice (Some ("456 Trade Rd, " ++ Str.or_else target "Global")%string) [None];
  container_teu ← choice (Some 1%float) [Some 2%float; Some 0.5%float; None];
  port_of_origin ← lettered "A" ["B"; "C"] (fun s => "Port " ++ s)%string;
  port_of_destination ← lettered "X" ["Y"; "Z"] (fun s => "Port " ++ s)%string;
  port_of_delivery ← lettered "P" ["Q"; "R"] (fun s => "Port " ++ s)%string;
  gross_weight ←
    choice (Some (Num.round2 (PrimFloat.div volume 100%float))) [None];
  measurement ← numbered 10 50 (fun n => n ++ " CBM")%string;
  freight_term ← choice (Some "FOB") [Some "CIF"; Some "EXW"; None];
  forwarder_name ←
    lettered "Logistics" ["Global"] (fun s => "Forwarder " ++ s)%string;
  declarant_name ← numbered 1 5 (fun n => "Declarant " ++ n)%string;
  notify_party_address ←
    choice (Some ("789 Recv Blvd, " ++ partner_country_name)%string) [None];
  declarant_name_2 ← numbered 6 10 (fun n => "Declarant " ++ n)%string;
  marks_number ← numbered 1000 9999 (fun n => "MN-" ++ n)%string;
  contact_number_booking ←
    numbered 1000000000 9999999999 (fun n => "+1" ++ n)%string;
  contact_email_booking ←
    numbered 1 10 (fun n => "booking" ++ n ++ "@example.com")%string;
  mret {|
    T.country := Some partner_country_name;
    T.volume_usd := Some volume;
    T.volume_unit := Some (PrimFloat.div volume 100%float);
    T.unit := unit;
    T.year := Some 2023;
    T.source := Some (Str.or_else (Some (netloc url)) "Simulated Data Source");
    T.hscode := if Qlt_le_dec 0.1 r_hscode then hscode_val else None;
    T.product_description :=
      if Qlt_le_dec 0.05 r_product then product_desc_val
      else Some ("Generic " ++ Str.or_else hscode_val "Product")%string;
    T.hs_product_description := hs_product_description;
    T.shipper_name := shipper_name;
    T.consignee_name := consignee_name;
    T.std_quantity := std_quantity;
    T.std_unit := std_unit;
    T.country_of_destination :=
      if export then Some partner_country_name else target;
    T.package_type := package_type;
    T.country_of_origin :=
      if export then target else Some partner_country_name;
    T.quantity := quantity;
    T.bill_of_lading_no := bill_of_lading_no;
    T.consignee_address := consignee_address;
    T.supplier_address := supplier_address;
    T.container_teu := container_teu;
    T.port_of_origin := port_of_origin;
    T.port_of_destination := port_of_destination;
    T.port_of_delivery := port_of_delivery;
    T.gross_weight := gross_weight;
    T.measurement := measurement;
    T.freight_term := freight_term;
    T.forwarder_name := forwarder_name;
    T.declarant_name := declarant_name;
    T.notify_party_address := notify_party_address;
    T.declarant_name_2 := declarant_name_2;
    T.marks_number := marks_number;
    T.contact_number_booking := contact_number_booking;
    T.contact_email_booking := contact_email_booking
  |}.

(** the loop over the partner countries *)
Fixpoint simulate_partners (url query : string) (parsed_query : P.t)
    (target : option string) (partners : list string) : M (list T.t) :=
  match partners with
  | [] => mret []
  | partner_country_name :: rest =>
      if is_reporting_country target partner_country_name
      then simulate_partners url query parsed_query target rest
      else
        record ← make_record url parsed_query target partner_country_name
                  (scaled_volume (P.intent parsed_query)
                     (base_volume partner_country_name query));
        dummy_data ← simulate_partners url query parsed_query target rest;
        mret (record :: dummy_data)
  end.

Definition _simulate_scrape_from_url (url query : string)
    (parsed_query : P.t) : M (list T.t) :=
  simulate_partners url query parsed_query
    (target_reporting_country_normalized parsed_query)
    possible_partner_countries.

(** [link and "pdf" not in link.lower() and "excel" not in link.lower()] *)
Definition eligible (l : option string) : bool :=
  match l with
  | Some l =>
      Str.truthy l
      && negb (Str.contains "pdf" (Str.lower unicode_lower l))
      && negb (Str.contains "excel" (Str.lower unicode_lower l))
  | None => false
  end.

(** the loop over the results of one query *)
Fixpoint fetch_results (query : string) (parsed_query : P.t)
    (google_results : list SearchResult) : M (list T.t) :=
  match google_results with
  | [] => mret []
  | result :: rest =>
      match link result with
      | Some l =>
          if eligible (Some l) then
            seen ← cached l;
            if seen : bool then fetch_results query parsed_query rest
            else
              simulated_scrape ← _simulate_scrape_from_url l query parsed_query;
              _ ← match simulated_scrape with
                  | [] => mret tt
                  | _ :: _ => cache_put l
                  end;
              more ← fetch_results query parsed_query rest;
              mret (simulated_scrape ++ more)%list
          else fetch_results query parsed_query rest
      | None => fetch_results query parsed_query rest
      end
  end.

(** the loop over the search queries *)
Fixpoint fetch_data (search_queries : list string) (parsed_query : P.t)
  : M (list T.t) :=
  match search_queries with
  | [] => mret []
  | query :: rest =>
      batch ← fetch_results query parsed_query (perform_google_search query);
      more ← fetch_data rest parsed_query;
      mret (batch ++ more)%list
  end.

End Synthesis.
End Synthesizer.

(** ** The replies of the language-model collaborator *)

Module Json.

(** what [json.loads] returns; an object is the list of the items of the
    decoded dictionary, whose keys are distinct *)
Inductive json : Type :=
| JNull
| JBool (b : bool)
| JNumber (q : Q)
| JString (s : string)
| JArray (l : list json)
| JObject (o : list (string * json)).

(** The outcome of a call: it raised, its text was not JSON, or its text
    decoded to a value. *)
Inductive reply : Type :=
| CallFailed
| NotJson (raw : string)
| Content (j : json).

(** [o.get(k)] on a decoded object *)
Fixpoint get (k : string) (o : list (string * json)) : option json :=
  match o with
  | [] => None
  | (k', v) :: o' => if String.eqb k k' then Some v else get k o'
  end.

(** validation of a field declared [Optional[str]]: [None] is a
    validation error *)
Definition optional_str (k : string) (o : list (string * json))
  : option (option string) :=
  match get k o with
  | None | Some JNull => Some None
  | Some (JString s) => Some (Some s)
  | Some _ => None
  end.

Definition as_str (j : json) : option string :=
  match j with JString s => Some s | _ => None end.

(** validation of a field declared [List[str]] with default [[]] *)
Definition str_list (k : string) (o : list (string * json))
  : option (list string) :=
  match get k o with
  | None => Some []
  | Some (JArray l) => mapM as_str l
  | Some _ => None
  end.

(** validation of a field declared [str], required *)
Definition required_str (k : string) (o : list (string * json))
  : option string :=
  get k o ≫= as_str.

End Json.

(** ** services.py: PerceiveAgent.parse_query *)

Module Perceive.
Import Models Json.

(** the [ParsedQuery] built from the keys of [parsed_data]; [None] when
    the construction raises *)
Definition validate (parsed_data : json) : option ParsedQuery.t :=
  match parsed_data with
  | JObject o =>
      hsn_code ← optional_str "hsn_code" o;
      product_name ← optional_str "product_name" o;
      country ← optional_str "country" o;
      intent ← optional_str "intent" o;
      keywords ← str_list "keywords" o;
      Some (ParsedQuery.mk hsn_code product_name country intent keywords)
  | _ => None
  end.

(** [parse_query], as a function of what the model call gave *)
Definition parse_query (response : reply) : ParsedQuery.t :=
  match response with
  | Content parsed_data => default ParsedQuery.empty (validate parsed_data)
  | NotJson _ | CallFailed => ParsedQuery.empty
  end.

End Perceive.

(** ** The part of pandas the agents use *)

Module Pandas.
Import Models.

(** a row as it is given to [pd.DataFrame]: a dictionary *)
Definition row : Type := list (string * value).

Record DataFrame : Type := mkDataFrame {
  columns : list string;
  rows : list row
}.

(** the distinct elements of a list, in order of first appearance *)
Fixpoint unique_from (seen l : list string) : list string :=
  match l with
  | [] => []
  | x :: l' =>
      if bool_decide (x ∈ seen) then unique_from seen l'
      else x :: unique_from (x :: seen) l'
  end.

Definition unique : list string -> list string := unique_from [].

(** [pd.DataFrame(data)] for a list of dictionaries: the columns are the
    keys, in order of first appearance *)
Definition from_records (data : list row) : DataFrame :=
  mkDataFrame (unique (concat (map (map fst) data))) data.

(** [pd.DataFrame(columns=cols)] *)
Definition from_columns (cols : list string) : DataFrame :=
  mkDataFrame cols [].

(** [df.empty] *)
Definition empty (df : DataFrame) : bool :=
  match columns df, rows df with
  | _ :: _, _ :: _ => false
  | _, _ => true
  end.

Fixpoint get (k : string) (r : row) : option value :=
  match r with
  | [] => None
  | (k', v) :: r' => if String.eqb k k' then Some v else get k r'
  end.

(** [df[col]] for a column that exists: a cell is [None] where the row
    has no value *)
Definition column (df : DataFrame) (col : string) : list (option value) :=
  map (get col) (rows df).

(** [pd.to_numeric(cell, errors='coerce')] followed by [fillna(0)]: a
    cell without a value and a cell holding NaN become 0 (a column of a
    float field holds no integer and no string) *)
Definition to_numeric_fillna (cell : option value) : float :=
  match cell with
  | Some (VFloat x) => if Float.is_nan x then 0%float else x
  | Some (VInt z) => Float.of_Z z
  | Some (VStr _) | None => 0%float
  end.

(** the string in a cell of a string column *)
Definition str_cell (cell : option value) : option string :=
  match cell with Some (VStr s) => Some s | _ => None end.

(** insertion of [x] before the first element it may stand before *)
Fixpoint insert_by {A : Type} (before : A -> A -> bool) (x : A) (l : list A)
  : list A :=
  match l with
  | [] => [x]
  | y :: l' => if before x y then x :: l else y :: insert_by before x l'
  end.

(** a stable insertion sort *)
Definition sort_by {A : Type} (before : A -> A -> bool) (l : list A) : list A :=
  foldr (insert_by before) [] l.

(** ascending sort of strings, by code points *)
Definition sort_str : list string -> list string := sort_by String.leb.

Section GroupBy.
(** the sum pandas computes for the float64 values of one group, given
    in the order of the rows: a routine of the library (a compensated
    floating-point summation), whose result need not be the exact sum
    and may be infinite or NaN *)
Variable float64_sum : list float -> float.

(** [groupby(key)[val].sum()]: one entry per distinct key, keys in
    ascending order, rows without a key left out *)
Definition groupby_sum (keys : list (option string)) (vals : list float)
  : list (string * float) :=
  map (fun k =>
         (k, float64_sum
               (map snd (List.filter
                           (fun kv => bool_decide (fst kv = Some k))
                           (zip keys vals)))))
      (sort_str (unique (omap id keys))).
End GroupBy.

(** an entry stands before the entries it is not smaller than *)
Definition not_smaller (x y : string * float) : bool :=
  Float.leb (snd y) (snd x).

(** [series.isna()] on an entry *)
Definition isna (x : string * float) : bool := Float.is_nan (snd x).

(** the entries that are not NaN in descending order, equal ones in
    their order in the series, then the NaN entries in their order in
    the series *)
Definition ranked (s : list (string * float)) : list (string * float) :=
  sort_by not_smaller (List.filter (fun x => negb (isna x)) s)
    ++ List.filter isna s.

(** [series.nlargest(n)] with [keep='first'] *)
Definition nlargest (n : nat) (s : list (string * float))
  : list (string * float) :=
  take n (ranked s).

Definition count (x : string) (l : list string) : nat :=
  length (List.filter (String.eqb x) l).

(** [series.mode()]: the values that occur most often among the cells
    that are not null, in ascending order *)
Definition mode (cells : list (option string)) : list string :=
  let values := omap id cells in
  let most := foldr Nat.max O (map (fun v => count v values) values) in
  sort_str (List.filter (fun v => Nat.eqb (count v values) most)
              (unique values)).

(** [series.isnull().all()] *)
Definition all_null {A : Type} (cells : list (option A)) : bool :=
  forallb (fun c => match c with None => true | Some _ => false end) cells.

End Pandas.

(** ** services.py: ActAgent.generate_recommendations *)

Module Aggregator.
Import Models Pandas Json.
Module T := TradeDataRecord.
Module P := ParsedQuery.

Inductive exn : Type :=
| KeyError (key : string)
| TypeError.

(** a call returns a value or raises *)
Inductive result (A : Type) : Type :=
| Ok (a : A)
| Raise (e : exn).
Arguments Ok {A} a.
Arguments Raise {A} e.

Definition no_data : Recommendation :=
  mkRecommendation "No Data"
    "No sufficient trade data found to generate specific recommendations.".

Definition general_advice : Recommendation :=
  mkRecommendation "General Advice"
    "Further detailed analysis is required for specific recommendations.".

Section Aggregation.
(** pandas' sum of a group of float64 values *)
Variable float64_sum : list float -> float.

(** [df.groupby('country')['volume_usd'].sum().nlargest(3)], the volume
    column having been made numeric; [groupby] raises when the frame has
    no such column *)
Definition top_countries (df : DataFrame) : result (list (string * float)) :=
  if bool_decide ("country" ∈ columns df) then
    Ok (nlargest 3
          (groupby_sum float64_sum (map str_cell (column df "country"))
                       (map to_numeric_fillna (column df "volume_usd"))))
  else Raise (KeyError "country").

(** [parsed_query.intent + ("ing" if parsed_query.intent else '')]:
    adding a string to [None] raises *)
Definition intent_phrase (intent : option string) : result string :=
  match intent with
  | None => Raise TypeError
  | Some i => Ok (i ++ (if Str.truthy i then "ing" else EmptyString))%string
  end.

(** [sep.join(parts)] *)
Fixpoint join (sep : string) (parts : list string) : string :=
  match parts with
  | [] => EmptyString
  | [p] => p
  | p :: rest => (p ++ sep ++ join sep rest)%string
  end.

Definition description_part (entry : string * float) : string :=
  (fst entry ++ ": $" ++ Num.format_money (snd entry))%string.

(** the top-markets step *)
Definition top_markets (df : DataFrame) (parsed_query : P.t)
  : result (list Recommendation) :=
  if negb (empty df) && bool_decide ("volume_usd" ∈ columns df) then
    match top_countries df with
    | Raise e => Raise e
    | Ok [] => Ok []
    | Ok top =>
        match intent_phrase (P.intent parsed_query) with
        | Raise e => Raise e
        | Ok phrase =>
            Ok [mkRecommendation
                  ("Top 3 " ++ phrase ++ " Markets by Volume")%string
                  (join ", " (map description_part top))]
        end
    end
  else Ok [].

(** the step for one categorical column *)
Definition modal (df : DataFrame) (col : string)
    (recommend : string -> Recommendation) : list Recommendation :=
  if bool_decide (col ∈ columns df) && negb (all_null (column df col)) then
    match mode (map str_cell (column df col)) with
    | first :: _ => [recommend first]
    | [] => []
    end
  else [].

Definition freight_recommendation (term : string) : Recommendation :=
  mkRecommendation "Common Freight Terms"
    ("Most frequently observed freight term: " ++ term ++ ".")%string.

Definition package_recommendation (package : string) : Recommendation :=
  mkRecommendation "Typical Packaging"
    ("Common packaging type: " ++ package ++ ".")%string.

Definition llm_columns : list string :=
  ["country"; "volume_usd"; "product_description"; "freight_term";
   "package_type"; "shipper_name"; "consignee_name"].

Definition has_string (s : string) (l : list json) : bool :=
  existsb (fun j => match j with JString s' => String.eqb s s' | _ => false end) l.

(** the loop over the entries of the model's list; an entry that makes
    the loop raise ends it, and what was appended before stays *)
Fixpoint append_entries (entries : list json) : list Recommendation :=
  match entries with
  | [] => []
  | JObject o :: rest =>
      match get "title" o, get "description" o with
      | Some t, Some d =>
          match as_str t, as_str d with
          | Some t, Some d => mkRecommendation t d :: append_entries rest
          | _, _ => []
          end
      | _, _ => append_entries rest
      end
  | JString s :: rest =>
      if Str.contains "title" s && Str.contains "description" s then []
      else append_entries rest
  | JArray a :: rest =>
      if has_string "title" a && has_string "description" a then []
      else append_entries rest
  | (JNull | JBool _ | JNumber _) :: _ => []
  end.

(** the [try] block: what it appends; every exception in it is caught *)
Definition llm_recommendations (df : DataFrame) (response : reply)
  : list Recommendation :=
  if forallb (fun c => bool_decide (c ∈ columns df)) llm_columns then
    match response with
    | Content (JArray entries) => append_entries entries
    | Content (JObject o) =>
        match get "recommendations" o with
        | Some (JArray entries) => append_entries entries
        | _ => []
        end
    | _ => []
    end
  else [].

(** [generate_recommendations], given what the model call returns *)
Definition generate_recommendations (trade_data : list T.t)
    (parsed_query : P.t) (response : reply) : result (list Recommendation) :=
  match trade_data with
  | [] => Ok [no_data]
  | _ :: _ =>
      let df := from_records (map (T.model_dump false) trade_data) in
      match top_markets df parsed_query with
      | Raise e => Raise e
      | Ok top =>
          let recommendations_list :=
            (top ++ modal df "freight_term" freight_recommendation
                 ++ modal df "package_type" package_recommendation
                 ++ llm_recommendations df response)%list in
          Ok match recommendations_list with
             | [] => [general_advice]
             | _ :: _ => recommendations_list
             end
      end
  end.

End Aggregation.
End Aggregator.

(** ** services.py: ActAgent.export_to_excel *)

Module Exporter.
Import Models Pandas.
Module T := TradeDataRecord.

(** [[TradeDataRecord.model_fields[field].alias or field for field in
    all_fields]] *)
Definition all_headers : list string := map (T.label true) T.model_fields.

(** the frame that [export_to_excel] writes *)
Definition export_to_excel (trade_data : list T.t) : DataFrame :=
  match trade_data with
  | [] => from_records []
  | _ :: _ =>
      let df := from_records (map (T.model_dump true) trade_data) in
      if empty df then from_columns all_headers else df
  end.

End Exporter.

(** ** services.py: DecideAgent.decide_strategy *)

Module Planner.
Import Models.
Module P := ParsedQuery.

(** the ASCII characters [str.isspace] accepts *)
Definition is_space (c : ascii) : bool :=
  let n := N_of_ascii c in
  (((9 <=? n) && (n <=? 13)) || ((28 <=? n) && (n <=? 32)))%N.

Section Strip.
(** [str.lstrip] and [str.rstrip] on a string that begins, respectively
    ends, outside ASCII follow the interpreter's Unicode tables. *)
Variable unicode_lstrip : string -> string.
Variable unicode_rstrip : string -> string.

Fixpoint lstrip (s : string) : string :=
  match s with
  | EmptyString => EmptyString
  | String c s' =>
      if Str.is_ascii c then (if is_space c then lstrip s' else s)
      else unicode_lstrip s
  end.

(** [rstrip] on the characters of the string, last one first *)
Fixpoint rstrip_rev (r : list ascii) : list ascii :=
  match r with
  | [] => []
  | c :: r' =>
      if Str.is_ascii c then (if is_space c then rstrip_rev r' else r)
      else rev (list_ascii_of_string
                  (unicode_rstrip (string_of_list_ascii (rev r))))
  end.

Definition rstrip (s : string) : string :=
  string_of_list_ascii (rev (rstrip_rev (rev (list_ascii_of_string s)))).

(** [s.strip()] *)
Definition strip (s : string) : string := rstrip (lstrip s).
End Strip.

(** [f"{x}"] for an optional string: [None] prints as [None] *)
Definition py_str (o : option string) : string := default "None" o.

Section Planner.
Variable unicode_lower : string -> string.
Variable unicode_lstrip : string -> string.
Variable unicode_rstrip : string -> string.

(** [base_query] before it is stripped *)
Definition base_query (parsed_query : P.t) : string :=
  let intent := P.intent parsed_query in
  ((match P.hsn_code parsed_query with
    | Some h => if Str.truthy h then "HSN " ++ h ++ " " else EmptyString
    | None => EmptyString
    end)
   ++ (match P.product_name parsed_query with
       | Some p => if Str.truthy p then p ++ " " else EmptyString
       | None => EmptyString
       end)
   ++ (if bool_decide (intent = Some "import") then "import data "
       else if bool_decide (intent = Some "export") then "export data "
       else "trade data ")
   ++ (match P.country parsed_query with
       | Some c =>
           if Str.truthy c then
             (if bool_decide (intent = Some "export")
              then "from " ++ c ++ " " else "to " ++ c ++ " ")
           else EmptyString
       | None => EmptyString
       end)
   ++ "open source statistics")%string.

(** the queries added for an HS code *)
Definition source_queries (parsed_query : P.t) (hsn_code : string)
  : list string :=
  let intent := py_str (P.intent parsed_query) in
  ["UN Comtrade HSN " ++ hsn_code;
   "EU Eurostat HSN " ++ hsn_code ++ " " ++ intent ++ " data";
   "US Census Bureau HSN " ++ hsn_code ++ " " ++ intent ++ " statistics"]%string
  ++ match P.country parsed_query with
     | Some c =>
         if Str.truthy c
            && bool_decide (Utils.normalize_country_name unicode_lower c = "India")
         then ["DGFT India HSN " ++ hsn_code ++ " " ++ intent ++ " data"]%string
         else []
     | None => []
     end.

Definition decide_strategy (parsed_query : P.t) : list string :=
  strip unicode_lstrip unicode_rstrip (base_query parsed_query)
  :: match P.hsn_code parsed_query with
     | Some h => if Str.truthy h then source_queries parsed_query h else []
     | None => []
     end.

End Planner.
End Planner.

(** ** models.py: ParsedQuery as JSON *)

Module Dump.
Import Models Json.
Module P := ParsedQuery.

Definition json_of_opt (o : option string) : json :=
  match o with Some s => JString s | None => JNull end.

(** the object [json.loads(parsed_query.model_dump_json())] *)
Definition model_dump (parsed_query : P.t) : json :=
  JObject [("hsn_code", json_of_opt (P.hsn_code parsed_query));
           ("product_name", json_of_opt (P.product_name parsed_query));
           ("country", json_of_opt (P.country parsed_query));
           ("intent", json_of_opt (P.intent parsed_query));
           ("keywords", JArray (map JString (P.keywords parsed_query)))].

End Dump.

(** ** main.py: the name of the exported file in analyze_trade *)

Module Main.
Import Models.
Module P := ParsedQuery.

(** [s.replace(a, b)] for single characters *)
Fixpoint replace (a b : ascii) (s : string) : string :=
  match s with
  | EmptyString => EmptyString
  | String c s' => String (if Ascii.eqb c a then b else c) (replace a b s')
  end.

(** [parsed_query.hsn_code or parsed_query.product_name or 'general'] *)
Definition identifier (parsed_query : P.t) : string :=
  Str.or_else (P.hsn_code parsed_query)
    (Str.or_else (P.product_name parsed_query) "general").

(** [parsed_query.intent or 'trade'] *)
Definition intent_str (parsed_query : P.t) : string :=
  Str.or_else (P.intent parsed_query) "trade".

Definition excel_filename (parsed_query : P.t) : string :=
  ("trade_data_" ++ replace "/" "-" (replace " " "_" (identifier parsed_query))
     ++ "_" ++ intent_str parsed_query ++ ".xlsx")%string.

(** [Path(...).name]: what follows the last slash *)
Fixpoint path_name (path : string) : string :=
  match path with
  | EmptyString => EmptyString
  | String c rest =>
      if Str.contains "/" rest then path_name rest
      else if Ascii.eqb c "/" then rest else path
  end.

End Main.

(** ** Sample inputs *)

Module Sample.
Import Models Runtime.

Definition unicode_lower (s : string) : string := s.
Definition hash (s : string) : Z := 7919 * Z.of_nat (String.length s) - 123456.
Definition netloc (url : string) : string := "example.org".
Definition search (query : string) : list Synthesizer.SearchResult :=
  [Synthesizer.mkResult (Some "https://example.org/trade") (Some "Trade")].
Definition w0 : world := mkWorld ∅ (fun n => N.of_nat (3 * n + 1)).

(** a summation: the floats are added one after the other *)
Definition float64_sum (values : list float) : float :=
  fold_left PrimFloat.add values 0%float.

Definition export_from_india : ParsedQuery.t :=
  ParsedQuery.mk None (Some "gas compressors") (Some "India") (Some "export") [].

Definition export_from_nowhere : ParsedQuery.t :=
  ParsedQuery.mk None (Some "gas compressors") (Some EmptyString) (Some "export") [].

Definition import_to_usa : ParsedQuery.t :=
  ParsedQuery.mk (Some "9021") None (Some "usa") (Some "import") ["trends"].

Definition no_intent : ParsedQuery.t :=
  ParsedQuery.mk (Some "8419") None None None [].

Definition importing : ParsedQuery.t :=
  ParsedQuery.mk (Some "8419") None None (Some "import") [].

(** [TradeDataRecord(country=c, volume_usd=v)] *)
Definition market (c : string) (v : Q) : TradeDataRecord.t :=
  TradeDataRecord.mk (Some c) (Some (Float.of_Q v)) None None None None None None None None None None None None None None None None None None None None None None None None None None None None None None None None.

(** [TradeDataRecord(country=c, volume_usd=x)] for a float [x] *)
Definition priced (c : string) (x : float) : TradeDataRecord.t :=
  TradeDataRecord.mk (Some c) (Some x) None None None None None None None None None None None None None None None None None None None None None None None None None None None None None None None None.

(** [TradeDataRecord(volume_usd=v)] *)
Definition volume_only (v : Q) : TradeDataRecord.t :=
  TradeDataRecord.mk None (Some (Float.of_Q v)) None None None None None None None None None None None None None None None None None None None None None None None None None None None None None None None None.

(** [TradeDataRecord(freight_term=f)] *)
Definition freight (f : string) : TradeDataRecord.t :=
  TradeDataRecord.mk None None None None None None None None None None None None None None None None None None None None None None None None None None (Some f) None None None None None None None.

Definition export_8419_from_india : ParsedQuery.t :=
  ParsedQuery.mk (Some "8419") None (Some "INDIA") (Some "export") [].

(** a record with a value in each column the language-model prompt reads *)
Definition shipment : TradeDataRecord.t :=
  TradeDataRecord.mk (Some "USA") (Some 120000%float) None None None None None
    (Some "gas compressors") None (Some "Shipper_100 Inc.")
    (Some "Consignee_200 Co.") None None None (Some "Pallets") None None None
    None None None None None None None None (Some "FOB") None None None None
    None None None.

End Sample.

(** ** The vocabulary of the specification *)

Module Spec.
Import Models.
Module T := TradeDataRecord.
Module P := ParsedQuery.

(** the partners a batch has a record for: those the loop does not skip *)
Definition kept_partners (unicode_lower : string -> string) (pq : P.t)
  : list string :=
  List.filter
    (fun p => negb (Synthesizer.is_reporting_country unicode_lower
                      (Synthesizer.target_reporting_country_normalized
                         unicode_lower pq) p))
    Synthesizer.possible_partner_countries.

(** the direction rule of one record, for a query country [c] *)
Definition direction_rule (unicode_lower : string -> string) (pq : P.t)
    (c : string) (r : T.t) : Prop :=
  (P.intent pq = Some "export" ->
     T.country_of_origin r = Some (Utils.normalize_country_name unicode_lower c)
     /\ T.country_of_destination r = T.country r)
  /\ (P.intent pq = Some "import" ->
     T.country_of_origin r = T.country r
     /\ T.country_of_destination r
        = Some (Utils.normalize_country_name unicode_lower c)).

(** the volume the specification gives the record of a partner: a value
    derived from the hash of the partner followed by the query, in
    [100000, 200000), multiplied by 1.2 for import and by 0.8 for
    export, and left as it is otherwise *)
Definition claimed_volume (hash : string -> Z) (intent : option string)
    (partner query : string) : float :=
  let base :=
    Float.of_Z (100000 + Z.abs (hash (partner ++ query)%string) mod 100000) in
  match intent with
  | Some "import" => PrimFloat.mul base 1.2%float
  | Some "export" => PrimFloat.mul base 0.8%float
  | _ => base
  end.

(** the labels of a record beside the values of its fields *)
Definition field_table (by_alias : bool) (r : T.t)
  : list (string * option value) :=
  zip (T.label by_alias <$> T.model_fields) (T.values r).

(** a label with a non-absent value in a record *)
Definition present (by_alias : bool) (r : T.t) (lbl : string) : Prop :=
  exists v, (lbl, Some v) ∈ field_table by_alias r.

(** the volume of a record as it is summed: a missing volume and a
    volume that is not a number count as 0 *)
Definition coerced_volume (r : T.t) : float :=
  match T.volume_usd r with
  | Some x => if Float.is_nan x then 0%float else x
  | None => 0%float
  end.

(** the sum of [volume_usd] over the records of a country, in the order
    of the input, for a summation of floats *)
Definition country_volume (float64_sum : list float -> float)
    (trade_data : list T.t) (c : string) : float :=
  float64_sum
    (map coerced_volume
         (List.filter (fun r => bool_decide (T.country r = Some c)) trade_data)).

(** in a descending listing [a] may stand before [b]: [b] is not larger
    than [a], and an amount that is not a number stands after the
    numbers *)
Definition descending (a b : float) : Prop :=
  Float.is_nan b = true \/ Float.leb b a = true.

(** [m] is a most frequent value of the list, and the smallest of the
    most frequent ones *)
Definition smallest_mode (values : list string) (m : string) : Prop :=
  m ∈ values
  /\ forall v, v ∈ values ->
       (Pandas.count v values <= Pandas.count m values)%nat
       /\ (Pandas.count v values = Pandas.count m values ->
           String.leb m v = true).

(** the most frequent value, the first-encountered one among equally
    frequent values *)
Fixpoint first_mode_from (values rest : list string) (best : string)
  : string :=
  match rest with
  | [] => best
  | v :: rest' =>
      first_mode_from values rest'
        (if (Pandas.count best values <? Pandas.count v values)%nat
         then v else best)
  end.

Definition first_encountered_mode (values : list string) : option string :=
  match values with
  | [] => None
  | v :: rest => Some (first_mode_from values rest v)
  end.

(** the inputs on which the top-markets step does not raise: no record
    has a volume, or some record has a country and the intent is
    present *)
Definition aggregable (trade_data : list T.t) (pq : P.t) : Prop :=
  (forall r, r ∈ trade_data -> T.volume_usd r = None)
  \/ ((exists r, r ∈ trade_data /\ is_Some (T.country r))
      /\ is_Some (P.intent pq)).

End Spec.

(** * Properties *)

Import Models Runtime Spec.
Module T := Models.TradeDataRecord.
Module P := Models.ParsedQuery.

Section RecordFields.
Variables (unicode_lower : string -> string) (netloc : string -> string).
Variables (url : string) (pq : ParsedQuery.t) (target : option string).
Variables (partner : string) (volume : float) (w : world).

Let record : TradeDataRecord.t :=
  fst (Synthesizer.make_record netloc url pq target partner volume w).

Lemma make_record_country : TradeDataRecord.country record = Some partner.
Proof. reflexivity. Qed.

Lemma make_record_volume_usd : TradeDataRecord.volume_usd record = Some volume.
Proof. reflexivity. Qed.

Lemma make_record_origin :
  TradeDataRecord.country_of_origin record =
  if bool_decide (ParsedQuery.intent pq = Some "export") then target else Some partner.
Proof. reflexivity. Qed.

Lemma make_record_destination :
  TradeDataRecord.country_of_destination record =
  if bool_decide (ParsedQuery.intent pq = Some "export") then Some partner else target.
Proof. reflexivity. Qed.
End RecordFields.

(** ** The country normalizer *)

Lemma country_map_canonical (k v : string) :
  Utils.country_map !! k = Some v ->
  v ∈ ["United States"; "India"; "Germany"; "United Kingdom"; "China";
       "Japan"; "European Union"].
Proof.
  unfold Utils.country_map. intros H.
  repeat (apply lookup_insert_Some in H as [[_ <-]|[_ H]];
          [repeat constructor|]).
  by rewrite lookup_empty in H.
Qed.

Lemma normalize_canonical unicode_lower (v : string) :
  v ∈ ["United States"; "India"; "Germany"; "United Kingdom"; "China";
       "Japan"; "European Union"] ->
  Utils.normalize_country_name unicode_lower v = v.
Proof.
  intros H. repeat (apply elem_of_cons in H as [->|H]; [by vm_compute|]).
  by apply elem_of_nil in H.
Qed.

Lemma normalize_cases unicode_lower (s : string) :
  Utils.normalize_country_name unicode_lower s = s
  \/ Utils.normalize_country_name unicode_lower s
       ∈ ["United States"; "India"; "Germany"; "United Kingdom"; "China";
          "Japan"; "European Union"].
Proof.
  unfold Utils.normalize_country_name.
  destruct (Utils.country_map !! _) eqn:E; [right|by left].
  by apply country_map_canonical in E.
Qed.

(** C10: normalize_country_name is idempotent: normalizing a normalized
    name changes nothing, for every input string. *)
Theorem normalize_country_name_idempotent unicode_lower (s : string) :
  Utils.normalize_country_name unicode_lower
    (Utils.normalize_country_name unicode_lower s)
  = Utils.normalize_country_name unicode_lower s.
Proof.
  destruct (normalize_cases unicode_lower s) as [E|H]; [by rewrite !E|].
  by apply normalize_canonical.
Qed.

(** ** The record synthesizer *)

Section SynthesisProps.
Variable unicode_lower : string -> string.
Variable hash : string -> Z.
Variable netloc : string -> string.
Variable perform_google_search : string -> list Synthesizer.SearchResult.

Local Abbreviation normalize := (Utils.normalize_country_name unicode_lower).
Local Abbreviation target_of :=
  (Synthesizer.target_reporting_country_normalized unicode_lower).
Local Abbreviation reporting :=
  (Synthesizer.is_reporting_country unicode_lower).
Local Abbreviation simulate :=
  (Synthesizer._simulate_scrape_from_url unicode_lower hash netloc).
Local Abbreviation fetch :=
  (Synthesizer.fetch_data unicode_lower hash netloc perform_google_search).
Local Abbreviation kept_partners := (Spec.kept_partners unicode_lower).
Local Abbreviation direction_rule := (Spec.direction_rule unicode_lower).

(** A projection of the records that does not read the drawn fields is
    the same projection of the partners that are kept. *)
Lemma simulate_partners_project {B : Type}
    (g : TradeDataRecord.t -> B) (h : string -> float -> B)
    (url query : string) (pq : ParsedQuery.t) (target : option string) :
  (forall p v w,
      g (fst (Synthesizer.make_record netloc url pq target p v w)) = h p v) ->
  forall partners w,
    g <$> fst (Synthesizer.simulate_partners unicode_lower hash netloc
                 url query pq target partners w)
    = (fun p => h p (Synthesizer.scaled_volume (ParsedQuery.intent pq)
                       (Synthesizer.base_volume hash p query)))
        <$> List.filter (fun p => negb (reporting target p)) partners.
Proof.
  intros Hg partners. induction partners as [|p ps IH]; intros w; [done|].
  cbn [Synthesizer.simulate_partners List.filter].
  destruct (reporting target p); cbn [negb]; [apply IH|].
  unfold mbind, M_bind, mret, M_ret. cbn [fst snd fmap list_fmap].
  f_equal; [apply Hg | apply IH].
Qed.

Lemma simulate_countries url query pq w :
  TradeDataRecord.country <$> fst (simulate url query pq w)
  = Some <$> kept_partners pq.
Proof.
  unfold Synthesizer._simulate_scrape_from_url, Spec.kept_partners.
  by rewrite (simulate_partners_project _ (fun p _ => Some p)).
Qed.

Lemma simulate_volumes url query pq w :
  TradeDataRecord.volume_usd <$> fst (simulate url query pq w)
  = (fun p => Some (Synthesizer.scaled_volume (ParsedQuery.intent pq)
                      (Synthesizer.base_volume hash p query)))
      <$> kept_partners pq.
Proof.
  unfold Synthesizer._simulate_scrape_from_url, Spec.kept_partners.
  by rewrite (simulate_partners_project _ (fun _ v => Some v)).
Qed.

(** What holds of every batch holds of everything [fetch_data] returns. *)
Lemma fetch_results_Forall (Pr : TradeDataRecord.t -> Prop) pq :
  (forall url query w, Forall Pr (fst (simulate url query pq w))) ->
  forall query results w,
    Forall Pr (fst (Synthesizer.fetch_results unicode_lower hash netloc
                      query pq results w)).
Proof.
  intros Hsim query results.
  induction results as [|res rest IH]; intros w; [constructor|].
  cbn [Synthesizer.fetch_results].
  destruct (Synthesizer.link res) as [l|]; [|apply IH].
  destruct (Synthesizer.eligible unicode_lower (Some l)); [|apply IH].
  unfold mbind at 1. unfold M_bind at 1.
  destruct (fst (cached l w)); [apply IH|].
  unfold mbind, M_bind, mret, M_ret. cbn [fst snd].
  apply Forall_app. split; [apply Hsim | apply IH].
Qed.

Lemma fetch_data_Forall (Pr : TradeDataRecord.t -> Prop) pq :
  (forall url query w, Forall Pr (fst (simulate url query pq w))) ->
  forall queries w, Forall Pr (fst (fetch queries pq w)).
Proof.
  intros Hsim queries. induction queries as [|q qs IH]; intros w; [constructor|].
  cbn [Synthesizer.fetch_data]. unfold mbind, M_bind, mret, M_ret.
  cbn [fst snd]. apply Forall_app. split; [|apply IH].
  by apply fetch_results_Forall.
Qed.

Lemma kept_partner_listed pq p :
  p ∈ kept_partners pq -> p ∈ Synthesizer.possible_partner_countries.
Proof.
  unfold Spec.kept_partners. rewrite !list_elem_of_In, filter_In. tauto.
Qed.

Lemma kept_partner_not_reporting pq p :
  p ∈ kept_partners pq -> reporting (target_of pq) p = false.
Proof.
  unfold Spec.kept_partners. rewrite list_elem_of_In, filter_In.
  intros [_ H]. by apply negb_true_iff.
Qed.

(** A listed partner is never the normalized form of a country it is
    not normalized to: only [USA] and [UK] are changed by the
    normalizer, and neither is the normalized form of any string. *)
Lemma listed_partner_normalized (c p : string) :
  p ∈ Synthesizer.possible_partner_countries ->
  p = normalize c -> normalize p = normalize c.
Proof.
  intros Hp Hc.
  assert (normalize p = p \/ p = "USA" \/ p = "UK") as [E|Hbad].
  { unfold Synthesizer.possible_partner_countries in Hp.
    repeat (apply elem_of_cons in Hp as [->|Hp]; [by vm_compute; auto|]).
    by apply elem_of_nil in Hp. }
  { by rewrite E. }
  exfalso. destruct (normalize_cases unicode_lower c) as [Hid|Hcan].
  - rewrite Hid in Hc. subst c. by destruct Hbad as [->| ->]; vm_compute in Hid.
  - rewrite <- Hc in Hcan. destruct Hbad as [->| ->];
      repeat (apply elem_of_cons in Hcan as [?|Hcan]; [done|]);
      by apply elem_of_nil in Hcan.
Qed.

Lemma simulate_never_reporting url query pq c w :
  ParsedQuery.country pq = Some c ->
  Forall (fun r => TradeDataRecord.country r <> Some (normalize c))
         (fst (simulate url query pq w)).
Proof.
  intros Hc. apply Forall_forall. intros r Hr.
  apply (list_elem_of_fmap_2 TradeDataRecord.country) in Hr.
  rewrite simulate_countries in Hr.
  apply list_elem_of_fmap in Hr as (p & -> & Hp). intros [= ->].
  pose proof (kept_partner_listed _ _ Hp) as Hl.
  pose proof (kept_partner_not_reporting _ _ Hp) as Hn.
  pose proof (listed_partner_normalized c _ Hl eq_refl) as Hnn.
  unfold Synthesizer.is_reporting_country,
    Synthesizer.target_reporting_country_normalized in Hn.
  rewrite Hc in Hn. destruct (Str.truthy c) eqn:Ht.
  - cbn [Str.opt_truthy] in Hn. rewrite Hnn, bool_decide_eq_true_2 in Hn by done.
    rewrite andb_true_r in Hn.
    unfold Synthesizer.possible_partner_countries in Hl.
    repeat (apply elem_of_cons in Hl as [Hl|Hl];
            [by rewrite Hl in Hn|]).
    by apply elem_of_nil in Hl.
  - destruct c; [|done]. vm_compute in Hl.
    repeat (apply elem_of_cons in Hl as [?|Hl]; [done|]).
    by apply elem_of_nil in Hl.
Qed.

(** C1: when the query names a country C, no record that [fetch_data]
    returns for it has the normalized form of C as its partner
    [country]. *)
Theorem fetch_data_never_reporting_country queries pq c w :
  ParsedQuery.country pq = Some c ->
  Forall (fun r => TradeDataRecord.country r
                   <> Some (Utils.normalize_country_name unicode_lower c))
         (fst (Synthesizer.fetch_data unicode_lower hash netloc
                 perform_google_search queries pq w)).
Proof.
  intros Hc. apply fetch_data_Forall. intros url query w'.
  by apply simulate_never_reporting.
Qed.

Lemma simulate_partners_Forall (Pr : TradeDataRecord.t -> Prop)
    (url query : string) (pq : ParsedQuery.t) (target : option string) :
  (forall p v w, Pr (fst (Synthesizer.make_record netloc url pq target p v w))) ->
  forall partners w,
    Forall Pr (fst (Synthesizer.simulate_partners unicode_lower hash netloc
                      url query pq target partners w)).
Proof.
  intros HPr partners. induction partners as [|p ps IH]; intros w; [constructor|].
  cbn [Synthesizer.simulate_partners].
  destruct (reporting target p); [apply IH|].
  unfold mbind, M_bind, mret, M_ret. cbn [fst snd].
  constructor; [apply HPr | apply IH].
Qed.

(** C2, as amended: when the query names a non-empty country, every
    record synthesized for an export query has the normalized query
    country as origin and its partner as destination, and for an import
    query the two are exchanged. *)
Theorem fetch_data_direction queries pq c w :
  ParsedQuery.country pq = Some c -> c <> EmptyString ->
  Forall (Spec.direction_rule unicode_lower pq c)
         (fst (Synthesizer.fetch_data unicode_lower hash netloc
                 perform_google_search queries pq w)).
Proof.
  intros Hc Hne. apply fetch_data_Forall. intros url query w'.
  apply simulate_partners_Forall. intros p v w''.
  unfold Spec.direction_rule.
  rewrite make_record_origin, make_record_destination, make_record_country.
  unfold Synthesizer.target_reporting_country_normalized. rewrite Hc.
  destruct c; [done|]. cbn [Str.truthy].
  split; intros ->; [by rewrite bool_decide_eq_true_2|].
  by rewrite bool_decide_eq_false_2.
Qed.

Lemma base_volume_range p query :
  100000 <= Synthesizer.base_volume hash p query < 200000.
Proof.
  unfold Synthesizer.base_volume.
  pose proof (Z.mod_pos_bound (Z.abs (hash (p ++ query)%string)) 100000).
  lia.
Qed.


Lemma partner_test (c t : string) :
  t <> c -> bool_decide (Some c = Some t) = false.
Proof. intros H. apply bool_decide_eq_false_2. congruence. Qed.

Lemma filter_map_length {A B : Type} (g : A -> B) (f : B -> bool)
    (l : list A) :
  length (List.filter (fun x => f (g x)) l) = length (List.filter f (map g l)).
Proof.
  induction l as [|x l IH]; [done|]. cbn. destruct (f (g x)); cbn; by rewrite IH.
Qed.

Lemma existsb_map_eq {A B : Type} (g : A -> B) (f : B -> bool) (l : list A) :
  existsb (fun x => f (g x)) l = existsb f (map g l).
Proof. induction l as [|x l IH]; [done|]. cbn. by rewrite IH. Qed.

Lemma kept_partners_length (pq : P.t) :
  length (Spec.kept_partners unicode_lower pq)
  = if existsb (Synthesizer.is_reporting_country unicode_lower
                  (Synthesizer.target_reporting_country_normalized
                     unicode_lower pq))
         Synthesizer.possible_partner_countries
    then 8%nat else 9%nat.
Proof.
  unfold Spec.kept_partners.
  destruct (Synthesizer.target_reporting_country_normalized unicode_lower pq)
    as [[|t0 t]|]; [reflexivity| |reflexivity].
  assert (Str.truthy (String t0 t) = true) as Ht by done.
  revert Ht. generalize (String t0 t). clear t0 t. intros t Ht.
  unfold Synthesizer.is_reporting_country. cbn [Str.opt_truthy].
  rewrite Ht. cbn [andb].
  pose (gg := fun n : string => bool_decide (Some n = Some t)).
  replace (existsb _ _)
    with (existsb gg (map (Utils.normalize_country_name unicode_lower)
                        Synthesizer.possible_partner_countries))
    by (symmetry;
        apply (existsb_map_eq (Utils.normalize_country_name unicode_lower) gg)).
  etransitivity;
    [apply (filter_map_length (Utils.normalize_country_name unicode_lower)
              (fun n => negb (gg n)))|].
  subst gg.
  replace (map (Utils.normalize_country_name unicode_lower)
             Synthesizer.possible_partner_countries)
    with ["United States"; "Germany"; "China"; "Japan"; "Brazil"; "Canada";
          "Mexico"; "France"; "United Kingdom"] by by vm_compute.
  cbn [List.filter existsb].
  destruct (decide (t = "United States")) as [->|?]; [by vm_compute|].
  destruct (decide (t = "Germany")) as [->|?]; [by vm_compute|].
  destruct (decide (t = "China")) as [->|?]; [by vm_compute|].
  destruct (decide (t = "Japan")) as [->|?]; [by vm_compute|].
  destruct (decide (t = "Brazil")) as [->|?]; [by vm_compute|].
  destruct (decide (t = "Canada")) as [->|?]; [by vm_compute|].
  destruct (decide (t = "Mexico")) as [->|?]; [by vm_compute|].
  destruct (decide (t = "France")) as [->|?]; [by vm_compute|].
  destruct (decide (t = "United Kingdom")) as [->|?]; [by vm_compute|].
  by rewrite !partner_test by assumption.
Qed.

Lemma kept_partners_many (pq : P.t) :
  (8 <= length (Spec.kept_partners unicode_lower pq))%nat.
Proof. rewrite kept_partners_length. destruct (existsb _ _); lia. Qed.

(** the volume the loop gives a partner is the one the specification
    describes *)
Lemma scaled_volume_claimed intent p query :
  Synthesizer.scaled_volume intent (Synthesizer.base_volume hash p query)
  = Spec.claimed_volume hash intent p query.
Proof.
  unfold Synthesizer.scaled_volume, Synthesizer.base_volume,
    Spec.claimed_volume.
  case_bool_decide as Hi; [by rewrite Hi|].
  case_bool_decide as He; [by rewrite He|].
  destruct intent as [i|]; [|done].
  assert (i <> "import" /\ i <> "export") as [Hi' He'] by (split; congruence).
  clear Hi He. cbv zeta.
  repeat (destruct i as [|[[] [] [] [] [] [] [] []] i]; try done).
Qed.

Lemma fmap_eq_Forall2 {A B C : Type} (g : A -> C) (h : B -> C)
    (l : list A) (k : list B) :
  g <$> l = h <$> k -> Forall2 (fun y x => g x = h y) k l.
Proof.
  revert k. induction l as [|x l IH]; intros [|y k] E; try done.
  injection E as E1 E2. constructor; [done | by apply IH].
Qed.

(** C6: the volume of each synthesized record is fixed by its partner,
    the query string and the intent, and reads no random draw. A batch
    has a record for each partner that is kept, at least eight of them;
    the volume of the record of a partner is the integer
    100000 + abs(hash(partner + query)) mod 100000, which lies in
    [100000, 200000), multiplied as a float by 1.2 for import and by
    0.8 for export, and left unscaled otherwise; two runs on any two
    states of the random generator (and any two links) give the same
    volumes. *)
Theorem base_volume_reproducible url1 url2 query pq w1 w2 :
  let batch1 :=
    fst (Synthesizer._simulate_scrape_from_url unicode_lower hash netloc
           url1 query pq w1) in
  let batch2 :=
    fst (Synthesizer._simulate_scrape_from_url unicode_lower hash netloc
           url2 query pq w2) in
  (8 <= length batch1)%nat
  /\ Forall2 (fun p r =>
               TradeDataRecord.country r = Some p
               /\ TradeDataRecord.volume_usd r
                  = Some (Spec.claimed_volume hash (ParsedQuery.intent pq)
                            p query))
       (Spec.kept_partners unicode_lower pq) batch1
  /\ TradeDataRecord.volume_usd <$> batch1
     = TradeDataRecord.volume_usd <$> batch2
  /\ forall p,
       100000 <= 100000 + Z.abs (hash (p ++ query)%string) mod 100000 < 200000.
Proof.
  cbv zeta. split; [|split; [|split]].
  - rewrite <- (length_fmap TradeDataRecord.country), simulate_countries,
      length_fmap.
    apply kept_partners_many.
  - pose proof (simulate_partners_project
      (fun r => (TradeDataRecord.country r, TradeDataRecord.volume_usd r))
      (fun p v => (Some p, Some v)) url1 query pq (target_of pq)
      (fun _ _ _ => eq_refl) Synthesizer.possible_partner_countries w1) as H.
    apply fmap_eq_Forall2 in H.
    eapply Forall2_impl; [exact H|]. intros p r [= -> ->].
    by rewrite scaled_volume_claimed.
  - by rewrite !simulate_volumes.
  - intros p. apply base_volume_range.
Qed.

End SynthesisProps.

(** ** Records as rows of a frame *)

Section Dump.
Import Pandas.

Lemma unique_from_elem (x : string) (l seen : list string) :
  x ∈ unique_from seen l <-> x ∈ l /\ x ∉ seen.
Proof.
  revert seen. induction l as [|y l IH]; intros seen; cbn [unique_from].
  - split; [by intros ?%elem_of_nil | by intros [?%elem_of_nil _]].
  - case_bool_decide as Hy.
    + rewrite IH, elem_of_cons. naive_solver.
    + rewrite !elem_of_cons, IH, elem_of_cons. split; [naive_solver|].
      intros [[->|Hx] Hs]; [by left|].
      destruct (decide (x = y)) as [->|]; [by left | right; naive_solver].
Qed.

Lemma unique_elem (x : string) (l : list string) : x ∈ unique l <-> x ∈ l.
Proof.
  unfold unique. rewrite unique_from_elem. split; [tauto|].
  intros H. split; [done | apply not_elem_of_nil].
Qed.

(** the columns of a frame built from dictionaries are their keys *)
Lemma from_records_columns (k : string) (data : list row) :
  k ∈ columns (from_records data) <-> exists r, r ∈ data /\ k ∈ map fst r.
Proof.
  cbn [from_records columns]. rewrite unique_elem.
  rewrite list_elem_of_In, in_concat. split.
  - intros (ks & Hks & Hk). apply in_map_iff in Hks as (r & <- & Hr).
    exists r. by rewrite !list_elem_of_In.
  - intros (r & Hr & Hk). exists (map fst r).
    split; [apply in_map | ]; by apply list_elem_of_In.
Qed.

Lemma exclude_none_keys (k : string) (l : list (string * option value)) :
  k ∈ map fst (T.exclude_none l) <-> exists v, (k, Some v) ∈ l.
Proof.
  induction l as [|[k' [v'|]] l IH]; cbn.
  - split; [by intros ?%elem_of_nil | by intros [? ?%elem_of_nil]].
  - rewrite elem_of_cons, IH. split.
    + intros [->|[v Hv]]; [exists v'; left | exists v; by right].
    + intros [v [[= -> ->]|Hv]%elem_of_cons]; [by left | right; by exists v].
  - rewrite IH. split; intros [v Hv]; exists v; [by right|].
    by apply elem_of_cons in Hv as [?|?].
Qed.

Lemma exclude_none_get (k : string) (o : option value)
    (l : list (string * option value)) :
  NoDup (map fst l) -> (k, o) ∈ l -> get k (T.exclude_none l) = o.
Proof.
  induction l as [|[k' o'] l IH]; [by intros _ ?%elem_of_nil|].
  cbn [map fst]. intros [Hk' Hnd]%NoDup_cons [[= -> ->]|Hin]%elem_of_cons.
  - destruct o' as [v|]; cbn; [by rewrite String.eqb_refl|].
    destruct (get k' (T.exclude_none l)) as [v|] eqn:E; [|done].
    exfalso. apply Hk'. clear -E.
    induction l as [|[k o] l IH]; [done|]. cbn in *.
    destruct o as [w|]; cbn in E; [|right; auto].
    destruct (String.eqb_spec k' k) as [->|]; [left | right; auto].
  - assert (k <> k') as Hne.
    { intros ->. apply Hk'. apply list_elem_of_In in Hin.
      apply list_elem_of_In. by apply (in_map fst) in Hin. }
    destruct o' as [v|]; cbn; [|by apply IH].
    apply String.eqb_neq in Hne. rewrite Hne. by apply IH.
Qed.

Lemma field_table_keys by_alias r :
  map fst (field_table by_alias r) = T.label by_alias <$> T.model_fields.
Proof. by destruct by_alias. Qed.

Lemma field_table_NoDup by_alias r : NoDup (map fst (field_table by_alias r)).
Proof.
  rewrite field_table_keys. apply (bool_decide_unpack _).
  by destruct by_alias; vm_compute.
Qed.

Lemma model_dump_keys by_alias r k :
  k ∈ map fst (T.model_dump by_alias r) <-> present by_alias r k.
Proof. apply exclude_none_keys. Qed.

Lemma model_dump_get by_alias r k o :
  (k, o) ∈ field_table by_alias r -> get k (T.model_dump by_alias r) = o.
Proof. apply exclude_none_get, field_table_NoDup. Qed.

Lemma present_iff by_alias r k o :
  (k, o) ∈ field_table by_alias r -> present by_alias r k <-> is_Some o.
Proof.
  intros Hin. split.
  - intros [v Hv]. apply model_dump_get in Hin, Hv. rewrite Hin in Hv.
    by rewrite Hv.
  - intros [v ->]. by exists v.
Qed.

Lemma country_in_table r :
  ("country", VStr <$> T.country r) ∈ field_table false r.
Proof. destruct r. repeat constructor. Qed.

Lemma volume_usd_in_table r :
  ("volume_usd", VFloat <$> T.volume_usd r) ∈ field_table false r.
Proof. destruct r. repeat constructor. Qed.

Lemma freight_term_in_table r :
  ("freight_term", VStr <$> T.freight_term r) ∈ field_table false r.
Proof. destruct r. repeat constructor. Qed.

Lemma package_type_in_table r :
  ("package_type", VStr <$> T.package_type r) ∈ field_table false r.
Proof. destruct r. repeat constructor. Qed.

End Dump.

(** ** The report exporter *)

Section ExporterProps.
Import Pandas.

Lemma dumped_columns by_alias (trade_data : list T.t) (lbl : string) :
  lbl ∈ columns (from_records (map (T.model_dump by_alias) trade_data))
  <-> exists r, r ∈ trade_data /\ present by_alias r lbl.
Proof.
  rewrite from_records_columns. split.
  - intros (row & Hrow & Hk).
    apply list_elem_of_In, in_map_iff in Hrow as (r & <- & Hr).
    exists r. split; [by apply list_elem_of_In | by apply model_dump_keys].
  - intros (r & Hr & Hp). exists (T.model_dump by_alias r).
    split; [|by apply model_dump_keys].
    apply list_elem_of_In, in_map. by apply list_elem_of_In.
Qed.

(** C5, as amended: for a non-empty list of records of which at least
    one has a value, the columns of the exported table are exactly the
    labels with a value in at least one record; when no record has any
    value, the columns are all the labels of the model. *)
Theorem export_to_excel_columns (trade_data : list T.t) :
  trade_data <> [] ->
  ((exists r lbl, r ∈ trade_data /\ present true r lbl) ->
     forall lbl,
       lbl ∈ columns (Exporter.export_to_excel trade_data)
       <-> exists r, r ∈ trade_data /\ present true r lbl)
  /\ ((forall r lbl, r ∈ trade_data -> ~ present true r lbl) ->
     columns (Exporter.export_to_excel trade_data) = Exporter.all_headers).
Proof.
  intros Hne. destruct trade_data as [|r0 rest]; [done|].
  unfold Exporter.export_to_excel.
  set (df := from_records (map (T.model_dump true) (r0 :: rest))).
  assert (forall lbl, lbl ∈ columns df
                      <-> exists r, r ∈ r0 :: rest /\ present true r lbl) as Hcols
    by apply dumped_columns.
  unfold empty. split.
  - intros (r & lbl & Hr & Hp) lbl'.
    assert (lbl ∈ columns df) as Hin by (apply Hcols; eauto).
    destruct (columns df) as [|c cs] eqn:E; [by apply elem_of_nil in Hin|].
    cbn [rows df from_records map]. by rewrite E.
  - intros Hnone. destruct (columns df) as [|c cs] eqn:E; [done|].
    exfalso. destruct (proj1 (Hcols c)) as (r & Hr & Hp); [left|].
    by apply (Hnone r c).
Qed.

End ExporterProps.

(** ** The query intent extractor *)

(** the intent of a parsed query, when present, is the string the
    model's reply carries under the key [intent] *)
Lemma parse_query_intent_source (response : Json.reply) :
  P.intent (Perceive.parse_query response) = None
  \/ exists o s,
       response = Json.Content (Json.JObject o)
       /\ Json.get "intent" o = Some (Json.JString s)
       /\ P.intent (Perceive.parse_query response) = Some s.
Proof.
  destruct response as [| |[| | | | |o]]; try by left.
  cbn [Perceive.parse_query Perceive.validate].
  destruct (Json.optional_str "hsn_code" o); [|by left].
  destruct (Json.optional_str "product_name" o); [|by left].
  destruct (Json.optional_str "country" o); [|by left].
  destruct (Json.optional_str "intent" o) as [[s|]|] eqn:E;
    destruct (Json.str_list "keywords" o); try by left.
  right. exists o, s. split; [done|]. split; [|done].
  unfold Json.optional_str in E.
  by destruct (Json.get "intent" o) as [[]|]; simplify_eq.
Qed.

(** C7: the intent is not confined to [import] and [export]. When the
    reply is an object whose values pass the validation of the model
    and the value under [intent] is a string, the parsed query has that
    very string as its intent, whatever the string is: the field is
    declared as an optional string and nothing checks it against the
    two literals its description names. *)
Theorem parse_query_keeps_any_intent (o : list (string * Json.json))
    (s : string) :
  Json.get "intent" o = Some (Json.JString s) ->
  is_Some (Perceive.validate (Json.JObject o)) ->
  P.intent (Perceive.parse_query (Json.Content (Json.JObject o))) = Some s.
Proof.
  intros Hget [pq Hpq]. cbn [Perceive.parse_query]. rewrite Hpq. cbn [default].
  cbn [Perceive.validate] in Hpq.
  destruct (Json.optional_str "hsn_code" o); [|done].
  destruct (Json.optional_str "product_name" o); [|done].
  destruct (Json.optional_str "country" o); [|done].
  unfold Json.optional_str at 1 in Hpq. rewrite Hget in Hpq.
  destruct (Json.str_list "keywords" o); [|done].
  cbn in Hpq. by simplify_eq.
Qed.

(** ** Sorting *)

Section SortBy.
Import Pandas.
Context {A : Type} (before : A -> A -> bool).
Hypothesis before_total : forall x y, before x y = true \/ before y x = true.
Hypothesis before_trans :
  forall x y z, before x y = true -> before y z = true -> before x z = true.

Local Abbreviation R := (fun x y => before x y = true).

Lemma insert_by_perm (x : A) (l : list A) : insert_by before x l ≡ₚ x :: l.
Proof.
  induction l as [|y l IH]; cbn; [done|].
  destruct (before x y); [done|]. rewrite IH. apply Permutation_swap.
Qed.

Lemma sort_by_perm (l : list A) : sort_by before l ≡ₚ l.
Proof.
  induction l as [|x l IH]; cbn; [done|].
  change (insert_by before x (sort_by before l) ≡ₚ x :: l).
  by rewrite insert_by_perm, IH.
Qed.

Lemma sort_by_elem (x : A) (l : list A) : x ∈ sort_by before l <-> x ∈ l.
Proof. by rewrite sort_by_perm. Qed.

Lemma insert_by_sorted (x : A) (l : list A) :
  StronglySorted R l -> StronglySorted R (insert_by before x l).
Proof using before_total before_trans.
  induction 1 as [|y l Hs IH Hy]; cbn; [repeat constructor|].
  destruct (before x y) eqn:E.
  - constructor; [by constructor|]. constructor; [done|].
    eapply Forall_impl; [exact Hy|]. intros z Hz. by eapply before_trans.
  - constructor; [done|]. rewrite insert_by_perm. constructor; [|done].
    by destruct (before_total x y) as [H|H]; [congruence|].
Qed.

Lemma sort_by_sorted (l : list A) : StronglySorted R (sort_by before l).
Proof using before_total before_trans.
  induction l as [|x l IH]; [constructor|]. by apply insert_by_sorted.
Qed.

End SortBy.

Lemma sorted_prefix {A : Type} (R : A -> A -> Prop) (n : nat) (l : list A) :
  StronglySorted R l -> StronglySorted R (take n l).
Proof.
  intros Hs. revert n. induction Hs as [|y l Hs IH Hy]; intros [|n]; cbn;
    try constructor; [apply IH|].
  apply Forall_forall. intros z Hz%subseteq_take.
  by apply (proj1 (Forall_forall _ _) Hy).
Qed.

Lemma string_leb_trans (a b c : string) :
  String.leb a b = true -> String.leb b c = true -> String.leb a c = true.
Proof.
  assert (forall x y, String.leb x y = true
                      <-> x = y \/ OrderedTypeEx.String_as_OT.lt x y) as Hle.
  { intros x y. unfold String.leb.
    rewrite <- OrderedTypeEx.String_as_OT.cmp_lt,
      <- OrderedTypeEx.String_as_OT.cmp_eq.
    unfold OrderedTypeEx.String_as_OT.cmp.
    destruct (String.compare x y); intuition congruence. }
  rewrite !Hle. intros [->|Hab] [->|Hbc]; auto.
  right. by eapply OrderedTypeEx.String_as_OT.lt_trans.
Qed.

(** sorting the elements of a domain on which the order is total and
    transitive *)
Section SortOn.
Import Pandas.
Context {A : Type} (before : A -> A -> bool) (D : A -> Prop).
Hypothesis before_total :
  forall x y, D x -> D y -> before x y = true \/ before y x = true.
Hypothesis before_trans :
  forall x y z, before x y = true -> before y z = true -> before x z = true.

Local Abbreviation R := (fun x y => before x y = true).

Lemma insert_by_sorted_on (x : A) (l : list A) :
  D x -> Forall D l -> StronglySorted R l ->
  StronglySorted R (insert_by before x l).
Proof using before_total before_trans.
  intros Hx Hl Hs. induction Hs as [|y l Hs IH Hy]; cbn; [repeat constructor|].
  apply Forall_cons in Hl as [Hdy Hl].
  destruct (before x y) eqn:E.
  - constructor; [by constructor|]. constructor; [done|].
    eapply Forall_impl; [exact Hy|]. intros z Hz. by eapply before_trans.
  - constructor; [by apply IH|]. rewrite insert_by_perm. constructor; [|done].
    by destruct (before_total x y) as [H|H]; [| |congruence|].
Qed.

Lemma sort_by_sorted_on (l : list A) :
  Forall D l -> StronglySorted R (sort_by before l).
Proof using before_total before_trans.
  induction l as [|x l IH]; [constructor|].
  intros [Hx Hl]%Forall_cons.
  apply (insert_by_sorted_on x (sort_by before l)); [done| |by apply IH].
  by rewrite sort_by_perm.
Qed.
End SortOn.

(** ** The order of floats *)

Lemma extended_leb_total (a b : Float.extended) :
  Float.extended_leb a b = true \/ Float.extended_leb b a = true.
Proof.
  destruct a as [|x|], b as [|y|]; cbn; auto.
  rewrite !Qle_bool_iff.
  destruct (Qlt_le_dec x y) as [H|H]; [left | by right].
  by apply Qlt_le_weak.
Qed.

Lemma extended_leb_trans (a b c : Float.extended) :
  Float.extended_leb a b = true -> Float.extended_leb b c = true ->
  Float.extended_leb a c = true.
Proof.
  destruct a as [|x|], b as [|y|], c as [|z|]; cbn; try done.
  rewrite !Qle_bool_iff. apply Qle_trans.
Qed.

Lemma float_leb_total (x y : float) :
  Float.is_nan x = false -> Float.is_nan y = false ->
  Float.leb x y = true \/ Float.leb y x = true.
Proof.
  unfold Float.is_nan, Float.leb.
  destruct (Float.number x), (Float.number y); try done.
  intros _ _. apply extended_leb_total.
Qed.

Lemma float_leb_trans (x y z : float) :
  Float.leb x y = true -> Float.leb y z = true -> Float.leb x z = true.
Proof.
  unfold Float.leb.
  destruct (Float.number x), (Float.number y), (Float.number z); try done.
  apply extended_leb_trans.
Qed.

(** ** The largest entries of a series *)

Section Largest.
Import Pandas.

Lemma filter_split {A : Type} (f : A -> bool) (l : list A) :
  List.filter (fun x => negb (f x)) l ++ List.filter f l ≡ₚ l.
Proof.
  induction l as [|x l IH]; [done|]. cbn [List.filter].
  destruct (f x); cbn [negb].
  - by rewrite <- Permutation_middle, IH.
  - cbn. by rewrite IH.
Qed.

Lemma ranked_perm (s : list (string * float)) : ranked s ≡ₚ s.
Proof. unfold ranked. by rewrite sort_by_perm, filter_split. Qed.

Lemma ranked_numbers (s : list (string * float)) :
  StronglySorted (fun x y => not_smaller x y = true)
    (sort_by not_smaller (List.filter (fun x => negb (isna x)) s)).
Proof.
  apply (sort_by_sorted_on _ (fun x => isna x = false)).
  - intros x y Hx Hy. unfold not_smaller.
    destruct (float_leb_total (snd x) (snd y)) as [H|H]; auto.
  - intros x y z. unfold not_smaller. intros H1 H2.
    by apply (float_leb_trans _ (snd y)).
  - apply Forall_forall. intros x [_ Hx]%list_elem_of_In%filter_In.
    by apply negb_true_iff.
Qed.

Lemma ranked_descending (s : list (string * float)) :
  StronglySorted (fun x y => descending (snd x) (snd y)) (ranked s).
Proof.
  unfold ranked. pose proof (ranked_numbers s) as Hs.
  induction Hs as [|x l Hs IH Hx]; cbn [app].
  - induction s as [|y s IH]; cbn [List.filter]; [constructor|].
    destruct (isna y) eqn:E; [|done]. constructor; [done|].
    apply Forall_forall. intros z [_ Hz]%list_elem_of_In%filter_In. by left.
  - constructor; [done|]. apply Forall_app. split.
    + eapply Forall_impl; [exact Hx|]. intros y Hy. by right.
    + apply Forall_forall. intros z [_ Hz]%list_elem_of_In%filter_In. by left.
Qed.
End Largest.

(** ** The recommendation aggregator *)

Section AggregatorFrame.
Import Pandas Aggregator.

(** the frame [generate_recommendations] builds *)
Local Abbreviation frame trade_data :=
  (from_records (map (T.model_dump false) trade_data)).

Variable col : string.
Variable field : T.t -> option value.
Hypothesis field_in_table : forall r, (col, field r) ∈ field_table false r.

Lemma column_field (trade_data : list T.t) :
  column (frame trade_data) col = map field trade_data.
Proof using field_in_table.
  unfold column. cbn [rows from_records]. rewrite map_map.
  apply map_ext. intros r. by apply model_dump_get.
Qed.

Lemma column_exists (trade_data : list T.t) :
  col ∈ columns (frame trade_data)
  <-> exists r, r ∈ trade_data /\ is_Some (field r).
Proof using field_in_table.
  rewrite dumped_columns.
  split; intros (r & Hr & H); exists r; (split; [done|]);
    by eapply present_iff.
Qed.

Lemma column_all_null (trade_data : list T.t) :
  all_null (column (frame trade_data) col) = false
  <-> exists r, r ∈ trade_data /\ is_Some (field r).
Proof using field_in_table.
  rewrite column_field. induction trade_data as [|r l IH]; cbn.
  - split; [done | by intros (r & ?%elem_of_nil & _)].
  - destruct (field r) as [v|] eqn:E; cbn.
    + split; [|done]. intros _. exists r. split; [left | by rewrite E].
    + rewrite IH. split; intros (r' & Hr' & Hs).
      * exists r'. split; [by right | done].
      * apply elem_of_cons in Hr' as [->|Hr']; [|by exists r'].
        rewrite E in Hs. by destruct Hs.
Qed.
End AggregatorFrame.

Section AggregatorProps.
Import Pandas Aggregator.
Variable float64_sum : list float -> float.

Local Abbreviation frame trade_data :=
  (from_records (map (T.model_dump false) trade_data)).
Local Abbreviation groups trade_data :=
  (groupby_sum float64_sum (map T.country trade_data)
     (map coerced_volume trade_data)).
(** the entries the top-markets step describes *)
Local Abbreviation top_of trade_data := (nlargest 3 (groups trade_data)).

Lemma country_cells (trade_data : list T.t) :
  map str_cell (column (frame trade_data) "country") = map T.country trade_data.
Proof.
  rewrite (column_field _ _ country_in_table), map_map.
  apply map_ext. intros r. by destruct (T.country r).
Qed.

Lemma volume_cells (trade_data : list T.t) :
  map to_numeric_fillna (column (frame trade_data) "volume_usd")
  = map coerced_volume trade_data.
Proof.
  rewrite (column_field _ _ volume_usd_in_table), map_map.
  apply map_ext. intros r. unfold coerced_volume. by destruct (T.volume_usd r).
Qed.

(** the values pandas sums for a country are the coerced volumes of the
    records of that country, in the order of the input *)
Lemma group_values (trade_data : list T.t) (c : string) :
  map snd (List.filter (fun kv => bool_decide (fst kv = Some c))
             (zip (map T.country trade_data)
                  (map coerced_volume trade_data)))
  = map coerced_volume
      (List.filter (fun r => bool_decide (T.country r = Some c)) trade_data).
Proof.
  induction trade_data as [|r l IH]; [done|].
  cbn [map zip zip_with List.filter fst].
  destruct (bool_decide (T.country r = Some c));
    cbn [map snd]; by rewrite ?IH.
Qed.

Lemma group_sum_country_volume (trade_data : list T.t) (c : string) :
  float64_sum
    (map snd (List.filter (fun kv => bool_decide (fst kv = Some c))
                (zip (map T.country trade_data)
                     (map coerced_volume trade_data))))
  = country_volume float64_sum trade_data c.
Proof. unfold country_volume. by rewrite group_values. Qed.

(** an entry of the grouped sums is a country of the input with the sum
    of its volumes *)
Lemma groupby_sum_entry (trade_data : list T.t) (c : string) (v : float) :
  (c, v) ∈ groups trade_data ->
  (exists r, r ∈ trade_data /\ T.country r = Some c)
  /\ v = country_volume float64_sum trade_data c.
Proof.
  unfold groupby_sum. intros Hin.
  apply list_elem_of_In, in_map_iff in Hin as (k & [= -> <-] & Hk).
  split; [|apply group_sum_country_volume].
  apply list_elem_of_In in Hk. unfold sort_str in Hk.
  rewrite sort_by_elem, unique_elem, list_elem_of_omap in Hk.
  destruct Hk as (o & Ho & Hid). cbv [id] in Hid. subst o.
  apply list_elem_of_In, in_map_iff in Ho as (r & Hr & Hin).
  exists r. by rewrite list_elem_of_In.
Qed.

Lemma groupby_sum_nonempty (trade_data : list T.t) :
  (exists r, r ∈ trade_data /\ is_Some (T.country r)) ->
  groups trade_data <> [].
Proof.
  intros (r & Hr & [c Hc]) E. unfold groupby_sum in E.
  apply map_eq_nil in E.
  assert (c ∈ sort_str (unique (omap id (map T.country trade_data)))) as Hin.
  { unfold sort_str. rewrite sort_by_elem, unique_elem, list_elem_of_omap.
    exists (Some c). split; [|done]. rewrite <- Hc.
    apply list_elem_of_In, in_map. by apply list_elem_of_In. }
  rewrite E in Hin. by apply elem_of_nil in Hin.
Qed.

Lemma exists_fmap {A B : Type} (f : T.t -> option A) (g : A -> B)
    (trade_data : list T.t) :
  (exists r, r ∈ trade_data /\ is_Some (g <$> f r))
  <-> exists r, r ∈ trade_data /\ is_Some (f r).
Proof. by setoid_rewrite fmap_is_Some. Qed.

Lemma top_countries_ok (trade_data : list T.t) :
  (exists r, r ∈ trade_data /\ is_Some (T.country r)) ->
  top_countries float64_sum (frame trade_data) = Ok (top_of trade_data).
Proof.
  intros H. unfold top_countries.
  rewrite bool_decide_eq_true_2
    by by apply (column_exists _ _ country_in_table), exists_fmap.
  by rewrite country_cells, volume_cells.
Qed.

Lemma top_countries_raise (trade_data : list T.t) :
  (forall r, r ∈ trade_data -> T.country r = None) ->
  top_countries float64_sum (frame trade_data) = Raise (KeyError "country").
Proof.
  intros H. unfold top_countries. rewrite bool_decide_eq_false_2; [done|].
  intros (r & Hr & Hs)%(column_exists _ _ country_in_table).
  rewrite (H r Hr) in Hs. by destruct Hs.
Qed.

Lemma top_of_nonempty (trade_data : list T.t) :
  (exists r, r ∈ trade_data /\ is_Some (T.country r)) ->
  top_of trade_data <> [].
Proof.
  intros H%groupby_sum_nonempty E. apply H. unfold nlargest in E.
  apply Permutation_nil_r. rewrite <- ranked_perm.
  by destruct (ranked _).
Qed.

Lemma volume_column (trade_data : list T.t) :
  negb (empty (frame trade_data))
  && bool_decide ("volume_usd" ∈ columns (frame trade_data)) = true
  <-> exists r, r ∈ trade_data /\ is_Some (T.volume_usd r).
Proof.
  rewrite andb_true_iff, bool_decide_eq_true,
    (column_exists _ _ volume_usd_in_table), exists_fmap.
  split; [by intros [_ H] | intros H]. split; [|done].
  apply (exists_fmap _ VFloat), (column_exists _ _ volume_usd_in_table) in H as H'.
  destruct H as (r & Hr & _). unfold empty.
  destruct (columns _); [by apply elem_of_nil in H'|].
  cbn [rows from_records]. by destruct trade_data; [apply elem_of_nil in Hr|].
Qed.

Lemma top_markets_emits (trade_data : list T.t) (pq : P.t) (i : string) :
  (exists r, r ∈ trade_data /\ is_Some (T.volume_usd r)) ->
  (exists r, r ∈ trade_data /\ is_Some (T.country r)) ->
  P.intent pq = Some i ->
  top_markets float64_sum (frame trade_data) pq
  = Ok [mkRecommendation
          ("Top 3 " ++ (i ++ (if Str.truthy i then "ing" else EmptyString))
                    ++ " Markets by Volume")%string
          (join ", " (map description_part (top_of trade_data)))].
Proof.
  intros Hv Hc Hi. unfold top_markets.
  rewrite (proj2 (volume_column trade_data) Hv), (top_countries_ok _ Hc).
  pose proof (top_of_nonempty _ Hc) as Hne.
  destruct (top_of trade_data); [done|]. by rewrite Hi.
Qed.

(** C3, as amended: when at least one record has a volume and at least
    one has a country, and the intent is present, the first
    recommendation describes at most 3 countries of the input, each
    with the sum pandas computes of its volumes (a missing volume and a
    volume that is not a number counting as 0), in descending order of
    these sums: no entry is followed by a larger one, and a sum that is
    not a number stands after the numbers. *)
Theorem top_markets_ranked (trade_data : list T.t) (pq : P.t) (i : string)
    (response : Json.reply) :
  (exists r, r ∈ trade_data /\ is_Some (T.volume_usd r)) ->
  (exists r, r ∈ trade_data /\ is_Some (T.country r)) ->
  P.intent pq = Some i ->
  exists top rest,
    generate_recommendations float64_sum trade_data pq response
    = Ok (mkRecommendation
            ("Top 3 " ++ (i ++ (if Str.truthy i then "ing" else EmptyString))
                      ++ " Markets by Volume")%string
            (join ", " (map description_part top)) :: rest)
    /\ (length top <= 3)%nat
    /\ StronglySorted (fun a b => descending (snd a) (snd b)) top
    /\ Forall (fun entry =>
         (exists r, r ∈ trade_data /\ T.country r = Some (fst entry))
         /\ snd entry = country_volume float64_sum trade_data (fst entry))
       top.
Proof.
  intros Hv Hc Hi. exists (top_of trade_data).
  unfold generate_recommendations.
  destruct trade_data as [|r0 l] eqn:Etd;
    [by destruct Hv as (? & ?%elem_of_nil & _)|].
  rewrite <- Etd in *. rewrite (top_markets_emits _ _ i Hv Hc Hi).
  eexists. split; [reflexivity|].
  split; [unfold nlargest; rewrite length_take; lia|]. split.
  - unfold nlargest. apply sorted_prefix, ranked_descending.
  - apply Forall_forall. intros [c v] Hin. cbn [fst snd].
    apply groupby_sum_entry. unfold nlargest in Hin.
    apply subseteq_take in Hin. by rewrite ranked_perm in Hin.
Qed.

Lemma top_markets_skipped (trade_data : list T.t) (pq : P.t) :
  (forall r, r ∈ trade_data -> T.volume_usd r = None) ->
  top_markets float64_sum (frame trade_data) pq = Ok [].
Proof.
  intros H. unfold top_markets.
  destruct (negb _ && _) eqn:E; [|done]. exfalso.
  apply volume_column in E as (r & Hr & Hs). rewrite (H r Hr) in Hs.
  by destruct Hs.
Qed.

Lemma top_markets_total (trade_data : list T.t) (pq : P.t) :
  aggregable trade_data pq ->
  exists top, top_markets float64_sum (frame trade_data) pq = Ok top.
Proof.
  intros [Hnone|[Hc [i Hi]]]; [by eexists; apply top_markets_skipped|].
  destruct (negb (empty (frame trade_data))
            && bool_decide ("volume_usd" ∈ columns (frame trade_data))) eqn:E.
  - apply volume_column in E. eexists. by apply top_markets_emits.
  - exists []. unfold top_markets. by rewrite E.
Qed.

Lemma top_markets_type_error (trade_data : list T.t) (pq : P.t)
    (response : Json.reply) :
  (exists r, r ∈ trade_data /\ is_Some (T.volume_usd r)) ->
  (exists r, r ∈ trade_data /\ is_Some (T.country r)) ->
  P.intent pq = None ->
  generate_recommendations float64_sum trade_data pq response
  = Raise TypeError.
Proof.
  intros Hv Hc Hi. unfold generate_recommendations.
  destruct trade_data as [|r0 l] eqn:Etd;
    [by destruct Hv as (? & ?%elem_of_nil & _)|].
  rewrite <- Etd in *. unfold top_markets.
  rewrite (proj2 (volume_column trade_data) Hv), (top_countries_ok _ Hc).
  pose proof (top_of_nonempty _ Hc) as Hne.
  destruct (top_of trade_data); [done|]. by rewrite Hi.
Qed.

(** C9: with a volume and a country among the records and the intent
    absent, the title of the top-markets recommendation cannot be built:
    the call raises [TypeError]. *)
Theorem absent_intent_raises (trade_data : list T.t) (pq : P.t)
    (response : Json.reply) :
  (exists r, r ∈ trade_data /\ is_Some (T.volume_usd r)) ->
  (exists r, r ∈ trade_data /\ is_Some (T.country r)) ->
  P.intent pq = None ->
  generate_recommendations float64_sum trade_data pq response
  = Raise TypeError.
Proof. apply top_markets_type_error. Qed.

(** C4: an empty input gives the one fallback recommendation, and a list
    that is returned is never empty; but the call does not return for
    every input: on a record with a country and a volume and a query
    without intent it raises. *)
Theorem generate_recommendations_nonempty :
  (forall pq response,
      generate_recommendations float64_sum [] pq response = Ok [no_data])
  /\ (forall trade_data pq response,
        match generate_recommendations float64_sum trade_data pq response with
        | Ok recs => recs <> []
        | Raise _ => True
        end)
  /\ generate_recommendations float64_sum [Sample.market "USA" 10]
       Sample.no_intent Json.CallFailed = Raise TypeError.
Proof.
  split; [done|]. split.
  - intros [|r0 l] pq response; [done|]. unfold generate_recommendations.
    destruct (top_markets _ _ pq) as [top|e]; [|done].
    by destruct (top ++ _)%list.
  - apply top_markets_type_error; [| |done];
      exists (Sample.market "USA" 10); (split; [left | by eexists]).
Qed.

End AggregatorProps.

(** ** Modal fields *)

Section Mode.
Import Pandas.

Lemma max_bound {A : Type} (f : A -> nat) (l : list A) (x : A) :
  x ∈ l -> (f x <= foldr Nat.max O (map f l))%nat.
Proof.
  induction l as [|y l IH]; [by intros ?%elem_of_nil|].
  intros [->|H]%elem_of_cons; cbn; [lia|]. specialize (IH H). lia.
Qed.

Lemma max_attained {A : Type} (f : A -> nat) (l : list A) :
  l <> [] -> exists x, x ∈ l /\ f x = foldr Nat.max O (map f l).
Proof.
  induction l as [|y l IH]; [done|]. intros _. cbn.
  destruct l as [|z l].
  - exists y. split; [left | cbn; lia].
  - destruct IH as (x & Hx & E); [done|].
    destruct (Nat.max_spec (f y) (foldr Nat.max O (map f (z :: l))))
      as [[_ ->]|[_ ->]].
    + exists x. split; [by right | done].
    + exists y. split; [left | done].
Qed.

Lemma mode_elem (cells : list (option string)) (v : string) :
  v ∈ mode cells
  <-> v ∈ omap id cells
      /\ count v (omap id cells)
         = foldr Nat.max O (map (fun v => count v (omap id cells))
                                (omap id cells)).
Proof.
  unfold mode, sort_str.
  rewrite sort_by_elem, list_elem_of_In, filter_In, <- list_elem_of_In,
    unique_elem, Nat.eqb_eq.
  done.
Qed.

Lemma mode_sorted (cells : list (option string)) :
  StronglySorted (fun a b => String.leb a b = true) (mode cells).
Proof.
  apply sort_by_sorted; [apply String.leb_total | apply string_leb_trans].
Qed.

(** the first of the modes is a most frequent value and the smallest of
    the most frequent ones *)
Lemma mode_first (cells : list (option string)) (m : string)
    (others : list string) :
  mode cells = m :: others -> smallest_mode (omap id cells) m.
Proof.
  intros E.
  assert (m ∈ mode cells) as [Hm Hcm]%mode_elem by (rewrite E; left).
  split; [done|]. intros v Hv. split.
  - rewrite Hcm. apply (max_bound (fun v => count v (omap id cells))), Hv.
  - intros Hc. assert (v ∈ mode cells) as Hin.
    { apply mode_elem. split; [done | congruence]. }
    pose proof (mode_sorted cells) as Hs. rewrite E in Hs, Hin.
    apply StronglySorted_inv in Hs as [_ Hall].
    apply elem_of_cons in Hin as [->|Hin].
    + by destruct (String.leb_total m m).
    + by apply (proj1 (Forall_forall _ _) Hall).
Qed.

Lemma mode_nonempty (cells : list (option string)) :
  omap id cells <> [] -> mode cells <> [].
Proof.
  intros (v & Hv & Hc)%(max_attained (fun v => count v (omap id cells))) E.
  assert (v ∈ mode cells) as Hin by by apply mode_elem.
  rewrite E in Hin. by apply elem_of_nil in Hin.
Qed.
End Mode.

Section ModalProps.
Import Pandas Aggregator.
Variable float64_sum : list float -> float.

Local Abbreviation frame trade_data :=
  (from_records (map (T.model_dump false) trade_data)).

Section OneField.
Variable col : string.
Variable field : T.t -> option string.
Variable recommend : string -> Recommendation.
Hypothesis field_in_table :
  forall r, (col, VStr <$> field r) ∈ field_table false r.

Lemma modal_emits (trade_data : list T.t) :
  (exists r, r ∈ trade_data /\ is_Some (field r)) ->
  exists m, modal (frame trade_data) col recommend = [recommend m]
            /\ smallest_mode (omap field trade_data) m.
Proof using field_in_table.
  intros H. unfold modal.
  apply (exists_fmap _ VStr) in H as H'.
  rewrite bool_decide_eq_true_2
    by by apply (column_exists _ _ field_in_table).
  rewrite (proj2 (column_all_null _ _ field_in_table trade_data) H').
  rewrite (column_field _ _ field_in_table), map_map. cbn [negb andb].
  assert (map (fun r => str_cell (VStr <$> field r)) trade_data
          = map field trade_data) as ->
    by (apply map_ext; intros r; by destruct (field r)).
  assert (omap id (map field trade_data) = omap field trade_data) as Eo.
  { clear. induction trade_data as [|r l IH]; [done|].
    cbn [map omap list_omap]. change (id (field r)) with (field r).
    destruct (field r); [f_equal|]; exact IH. }
  destruct (mode (map field trade_data)) as [|m others] eqn:E.
  - exfalso. apply (mode_nonempty (map field trade_data)); [|done].
    rewrite Eo. destruct H as (r & Hr & [v Hv]). intros En.
    assert (v ∈ omap field trade_data) as Hin
      by (apply list_elem_of_omap; eauto).
    rewrite En in Hin. by apply elem_of_nil in Hin.
  - exists m. split; [done|]. rewrite <- Eo. by eapply mode_first.
Qed.
End OneField.

(** C8, as amended: when the top-markets step does not raise, a field
    among [freight_term] and [package_type] that has a value in at
    least one record gets a recommendation naming its most frequent
    value, the smallest one in string order among equally frequent
    values. *)
Theorem modal_fields (trade_data : list T.t) (pq : P.t)
    (response : Json.reply) :
  aggregable trade_data pq ->
  exists recs,
    generate_recommendations float64_sum trade_data pq response = Ok recs
    /\ ((exists r, r ∈ trade_data /\ is_Some (T.freight_term r)) ->
        exists m, smallest_mode (omap T.freight_term trade_data) m
                  /\ freight_recommendation m ∈ recs)
    /\ ((exists r, r ∈ trade_data /\ is_Some (T.package_type r)) ->
        exists m, smallest_mode (omap T.package_type trade_data) m
                  /\ package_recommendation m ∈ recs).
Proof.
  intros Hagg. unfold generate_recommendations.
  destruct trade_data as [|r0 l] eqn:Etd.
  { eexists. split; [done|].
    split; by intros (? & ?%elem_of_nil & _). }
  rewrite <- Etd in *.
  destruct (top_markets_total float64_sum _ _ Hagg) as [top ->].
  eexists. split; [reflexivity|]. split; intros H.
  - destruct (modal_emits _ _ freight_recommendation
                freight_term_in_table _ H) as (m & -> & Hm).
    exists m. split; [done|].
    destruct top; cbn; rewrite ?elem_of_cons, ?elem_of_app, ?elem_of_cons;
      auto.
  - destruct (modal_emits _ _ package_recommendation
                package_type_in_table _ H) as (m & -> & Hm).
    exists m. split; [done|].
    set (x := modal _ "freight_term" _). set (y := llm_recommendations _ _).
    destruct (top ++ x ++ [package_recommendation m] ++ y)%list eqn:E.
    + by destruct top, x.
    + rewrite <- E, !elem_of_app, elem_of_cons. auto.
Qed.

End ModalProps.

(** ** The properties at sample inputs *)

Lemma fetch_data_never_reporting_country_witness :
  Forall (fun r => T.country r
                   <> Some (Utils.normalize_country_name Sample.unicode_lower "usa"))
    (fst (Synthesizer.fetch_data Sample.unicode_lower Sample.hash Sample.netloc
            Sample.search ["q1"; "q2"] Sample.import_to_usa Sample.w0)).
Proof.
  apply (fetch_data_never_reporting_country Sample.unicode_lower Sample.hash
           Sample.netloc Sample.search ["q1"; "q2"] Sample.import_to_usa "usa").
  reflexivity.
Defined.

Lemma fetch_data_direction_witness :
  Forall (direction_rule Sample.unicode_lower Sample.export_from_india "India")
    (fst (Synthesizer.fetch_data Sample.unicode_lower Sample.hash Sample.netloc
            Sample.search ["q1"; "q2"] Sample.export_from_india Sample.w0)).
Proof.
  apply (fetch_data_direction Sample.unicode_lower Sample.hash Sample.netloc
           Sample.search ["q1"; "q2"] Sample.export_from_india "India").
  - reflexivity.
  - discriminate.
Defined.

(** C2 as stated fails for a query whose country is the empty string: the
    synthesizer treats it as no country, and the origin of an export
    record is absent. *)
Lemma direction_fails_for_empty_country :
  P.country Sample.export_from_nowhere = Some EmptyString
  /\ P.intent Sample.export_from_nowhere = Some "export"
  /\ ~ Forall (direction_rule Sample.unicode_lower Sample.export_from_nowhere
                EmptyString)
        (fst (Synthesizer.fetch_data Sample.unicode_lower Sample.hash
                Sample.netloc Sample.search ["q1"] Sample.export_from_nowhere
                Sample.w0)).
Proof.
  split; [reflexivity|]. split; [reflexivity|]. intros H.
  apply Forall_cons in H as [[Hexport _] _].
  destruct (Hexport eq_refl) as [Horigin _]. discriminate Horigin.
Qed.

Lemma top_markets_ranked_witness :
  exists top rest,
    Aggregator.generate_recommendations Sample.float64_sum
      [Sample.market "USA" 10; Sample.market "UK" 20; Sample.market "USA" 5]
      Sample.importing Json.CallFailed
    = Aggregator.Ok
        (mkRecommendation "Top 3 importing Markets by Volume"
           (Aggregator.join ", " (map Aggregator.description_part top)) :: rest)
    /\ (length top <= 3)%nat
    /\ StronglySorted (fun a b => descending (snd a) (snd b)) top
    /\ Forall (fun entry =>
         (exists r, r ∈ [Sample.market "USA" 10; Sample.market "UK" 20;
                         Sample.market "USA" 5]
                    /\ T.country r = Some (fst entry))
         /\ snd entry
            = country_volume Sample.float64_sum
                [Sample.market "USA" 10; Sample.market "UK" 20;
                 Sample.market "USA" 5] (fst entry)) top.
Proof.
  apply (top_markets_ranked Sample.float64_sum _ Sample.importing "import"
           Json.CallFailed).
  - exists (Sample.market "USA" 10). split; [left | by eexists].
  - exists (Sample.market "USA" 10). split; [left | by eexists].
  - reflexivity.
Defined.

(** C3 as stated fails when a record has a volume and no record has a
    country: the grouping raises and nothing is emitted; and it fails
    when the records have a volume and a country and the query has no
    intent: the title cannot be built. *)
Lemma top_markets_not_emitted :
  ((exists r, r ∈ [Sample.volume_only 10] /\ is_Some (T.volume_usd r))
   /\ Aggregator.generate_recommendations Sample.float64_sum
        [Sample.volume_only 10] Sample.importing Json.CallFailed
      = Aggregator.Raise (Aggregator.KeyError "country"))
  /\ ((exists r, r ∈ [Sample.market "USA" 10] /\ is_Some (T.volume_usd r))
      /\ Aggregator.generate_recommendations Sample.float64_sum
           [Sample.market "USA" 10] Sample.no_intent Json.CallFailed
         = Aggregator.Raise Aggregator.TypeError).
Proof.
  split; (split; [|by vm_compute]).
  - exists (Sample.volume_only 10). split; [left | by eexists].
  - exists (Sample.market "USA" 10). split; [left | by eexists].
Qed.

Lemma absent_intent_raises_witness :
  Aggregator.generate_recommendations Sample.float64_sum
    [Sample.market "USA" 10; Sample.market "Germany" 20] Sample.no_intent
    Json.CallFailed
  = Aggregator.Raise Aggregator.TypeError.
Proof.
  apply absent_intent_raises.
  - exists (Sample.market "USA" 10). split; [left | by eexists].
  - exists (Sample.market "USA" 10). split; [left | by eexists].
  - reflexivity.
Defined.

Lemma export_to_excel_columns_witness :
  ((exists r lbl, r ∈ [Sample.freight "FOB"] /\ present true r lbl) ->
     forall lbl,
       lbl ∈ Pandas.columns (Exporter.export_to_excel [Sample.freight "FOB"])
       <-> exists r, r ∈ [Sample.freight "FOB"] /\ present true r lbl)
  /\ ((forall r lbl, r ∈ [Sample.freight "FOB"] -> ~ present true r lbl) ->
     Pandas.columns (Exporter.export_to_excel [Sample.freight "FOB"])
     = Exporter.all_headers).
Proof. apply export_to_excel_columns. discriminate. Defined.

Lemma country_label_in_table (r : T.t) :
  ("country", VStr <$> T.country r) ∈ field_table true r.
Proof. destruct r. repeat constructor. Qed.

(** C5 as stated fails when every field of every record is absent: the
    table then has every label as a column, none of which has a value. *)
Lemma export_all_absent :
  [T.empty] <> []
  /\ "country" ∈ Pandas.columns (Exporter.export_to_excel [T.empty])
  /\ ~ exists r, r ∈ [T.empty] /\ present true r "country".
Proof.
  split; [discriminate|]. split; [vm_compute; left|].
  intros (r & ->%list_elem_of_singleton & Hp).
  apply (present_iff _ _ _ _ (country_label_in_table T.empty)) in Hp.
  by destruct Hp.
Qed.

(** C7 at the reply [{"intent": "trade"}]: the intent of the parsed
    query is [trade], neither absent nor one of the two literals. *)
Lemma parse_query_keeps_any_intent_witness :
  P.intent (Perceive.parse_query
              (Json.Content (Json.JObject [("intent", Json.JString "trade")])))
  = Some "trade".
Proof.
  apply (parse_query_keeps_any_intent [("intent", Json.JString "trade")]).
  - reflexivity.
  - by eexists.
Defined.

Lemma modal_fields_witness :
  exists recs,
    Aggregator.generate_recommendations Sample.float64_sum
      [Sample.freight "FOB"; Sample.freight "CIF"] Sample.importing
      Json.CallFailed = Aggregator.Ok recs
    /\ ((exists r, r ∈ [Sample.freight "FOB"; Sample.freight "CIF"]
                   /\ is_Some (T.freight_term r)) ->
        exists m,
          smallest_mode
            (omap T.freight_term [Sample.freight "FOB"; Sample.freight "CIF"]) m
          /\ Aggregator.freight_recommendation m ∈ recs)
    /\ ((exists r, r ∈ [Sample.freight "FOB"; Sample.freight "CIF"]
                   /\ is_Some (T.package_type r)) ->
        exists m,
          smallest_mode
            (omap T.package_type [Sample.freight "FOB"; Sample.freight "CIF"]) m
          /\ Aggregator.package_recommendation m ∈ recs).
Proof.
  apply modal_fields. left. intros r Hr.
  by repeat (apply elem_of_cons in Hr as [->|Hr]; [done|]);
     apply elem_of_nil in Hr.
Defined.

(** C8 as stated fails on a tie: of two terms seen once each, the one
    named is the smaller in string order, not the first in the input. *)
Lemma modal_tie_not_first_encountered :
  first_encountered_mode
    (omap T.freight_term [Sample.freight "FOB"; Sample.freight "CIF"])
  = Some "FOB"
  /\ Aggregator.generate_recommendations Sample.float64_sum
       [Sample.freight "FOB"; Sample.freight "CIF"] Sample.importing
       Json.CallFailed
     = Aggregator.Ok [Aggregator.freight_recommendation "CIF"].
Proof. by vm_compute. Qed.

(** ** The code at sample inputs *)

Example normalize_usa :
  Utils.normalize_country_name Sample.unicode_lower "USA" = "United States".
Proof. by vm_compute. Qed.

Example normalize_unmapped :
  Utils.normalize_country_name Sample.unicode_lower "Brazil" = "Brazil".
Proof. by vm_compute. Qed.

Example format_money_groups :
  Num.format_money 1234567.891%float = "1,234,567.89".
Proof. by vm_compute. Qed.

(** on numbers of each kind the order of floats is the binary64
    comparison *)
Example float_order_is_binary64 :
  let kinds :=
    [nan; neg_infinity; -1e308; -1; -0; 0; 5e-324; 0.1; 1; 1e16; 1e308;
     infinity]%float in
  forallb (fun x =>
             forallb (fun y => Bool.eqb (Float.leb x y) (PrimFloat.leb x y))
                     kinds) kinds = true
  /\ forallb (fun x => Bool.eqb (Float.is_nan x) (PrimFloat.is_nan x)) kinds
     = true.
Proof. by vm_compute. Qed.

Example volume_is_a_float_product :
  Synthesizer.scaled_volume (Some "import") 183861 = 220633.19999999998%float
  /\ Synthesizer.scaled_volume (Some "export") 183861
     = 147088.80000000002%float
  /\ Synthesizer.scaled_volume (Some "trade") 183861 = 183861%float.
Proof. by vm_compute. Qed.

Example round2_of_floats :
  Num.round2 100.025%float = 100.03%float
  /\ Num.round2 2.675%float = 2.67%float
  /\ Num.round2 (PrimFloat.div 220633.19999999998 5000)%float = 44.13%float.
Proof. by vm_compute. Qed.

Example format_money_of_floats :
  Num.format_money 0.125%float = "0.12"
  /\ Num.format_money 0.005%float = "0.01"
  /\ Num.format_money (-1234.5)%float = "-1,234.50"
  /\ Num.format_money infinity = "inf"
  /\ Num.format_money nan = "nan".
Proof. by vm_compute. Qed.

Example partners_of_a_german_query :
  T.country
    <$> fst (Synthesizer._simulate_scrape_from_url Sample.unicode_lower
               Sample.hash Sample.netloc "https://example.org/trade" "q"
               (P.mk None None (Some "GERMANY") (Some "import") []) Sample.w0)
  = Some <$> ["USA"; "China"; "Japan"; "Brazil"; "Canada"; "Mexico"; "France";
              "UK"].
Proof. by vm_compute. Qed.

Example second_hit_on_a_link_is_skipped :
  length (fst (Synthesizer.fetch_data Sample.unicode_lower Sample.hash
                 Sample.netloc Sample.search ["q1"; "q2"] Sample.importing
                 Sample.w0)) = 9%nat.
Proof. by vm_compute. Qed.

Example top_three_of_five_markets :
  Aggregator.generate_recommendations Sample.float64_sum
    [Sample.market "USA" 10; Sample.market "UK" 1234567.891;
     Sample.market "USA" 5; Sample.market "France" 15;
     Sample.market "Germany" 15; Sample.market "Brazil" 1]
    Sample.importing Json.CallFailed
  = Aggregator.Ok
      [mkRecommendation "Top 3 importing Markets by Volume"
         "UK: $1,234,567.89, France: $15.00, Germany: $15.00"].
Proof. by vm_compute. Qed.

Example equal_float_sums_keep_the_order_of_the_groups :
  Aggregator.generate_recommendations Sample.float64_sum
    [Sample.priced "B" 1e16; Sample.priced "B" 1; Sample.priced "A" 1e16]
    Sample.importing Json.CallFailed
  = Aggregator.Ok
      [mkRecommendation "Top 3 importing Markets by Volume"
         "A: $10,000,000,000,000,000.00, B: $10,000,000,000,000,000.00"].
Proof. by vm_compute. Qed.

Example volume_that_is_not_a_number_counts_as_zero :
  Aggregator.generate_recommendations Sample.float64_sum
    [Sample.priced "C" nan; Sample.priced "D" 7] Sample.importing
    Json.CallFailed
  = Aggregator.Ok
      [mkRecommendation "Top 3 importing Markets by Volume"
         "D: $7.00, C: $0.00"].
Proof. by vm_compute. Qed.

Example sum_that_is_not_a_number_is_listed_last :
  Aggregator.generate_recommendations Sample.float64_sum
    [Sample.priced "A" infinity; Sample.priced "A" neg_infinity;
     Sample.priced "B" 5] Sample.importing Json.CallFailed
  = Aggregator.Ok
      [mkRecommendation "Top 3 importing Markets by Volume"
         "B: $5.00, A: $nan"].
Proof. by vm_compute. Qed.

Example model_reply_is_appended :
  Aggregator.generate_recommendations Sample.float64_sum [Sample.shipment] Sample.importing
    (Json.Content
       (Json.JObject
          [("recommendations",
            Json.JArray
              [Json.JObject [("title", Json.JString "Diversify");
                             ("description", Json.JString "Add a market.")];
               Json.JObject [("title", Json.JString "No description")]])]))
  = Aggregator.Ok
      [mkRecommendation "Top 3 importing Markets by Volume" "USA: $120,000.00";
       mkRecommendation "Common Freight Terms"
         "Most frequently observed freight term: FOB.";
       mkRecommendation "Typical Packaging" "Common packaging type: Pallets.";
       mkRecommendation "Diversify" "Add a market."].
Proof. by vm_compute. Qed.

Example model_reply_is_skipped_without_its_columns :
  Aggregator.generate_recommendations Sample.float64_sum [Sample.market "USA" 120000]
    Sample.importing
    (Json.Content
       (Json.JArray
          [Json.JObject [("title", Json.JString "Diversify");
                         ("description", Json.JString "Add a market.")]]))
  = Aggregator.Ok
      [mkRecommendation "Top 3 importing Markets by Volume" "USA: $120,000.00"].
Proof. by vm_compute. Qed.

Example export_of_two_records :
  Pandas.columns
    (Exporter.export_to_excel [Sample.freight "FOB"; Sample.market "USA" 1])
  = ["Freight Term"; "country"; "volume_usd"].
Proof. by vm_compute. Qed.

Example parse_query_soft_failure :
  Perceive.parse_query (Json.NotJson "I cannot answer that.") = P.empty
  /\ Perceive.parse_query
       (Json.Content (Json.JObject [("intent", Json.JNumber 1)])) = P.empty.
Proof. by vm_compute. Qed.

(** * Further properties of the code *)

(** ** Strings *)

Lemma str_app_cons (x : ascii) (a b : string) :
  (String x a ++ b = String x (a ++ b))%string.
Proof. reflexivity. Qed.

Lemma str_app_assoc (a b c : string) : ((a ++ b) ++ c = a ++ (b ++ c))%string.
Proof.
  induction a as [|x a IH]; [reflexivity|]. by rewrite !str_app_cons, IH.
Qed.

Lemma list_ascii_app (a b : string) :
  list_ascii_of_string (a ++ b)
  = (list_ascii_of_string a ++ list_ascii_of_string b)%list.
Proof.
  induction a as [|x a IH]; [reflexivity|]. rewrite str_app_cons. cbn. by rewrite IH.
Qed.

Lemma prefix_app (sub rest : string) : String.prefix sub (sub ++ rest) = true.
Proof.
  induction sub as [|x sub IH]; [by destruct rest|]. rewrite str_app_cons. cbn.
  by destruct (ascii_dec x x).
Qed.

Lemma prefix_nil (s : string) : String.prefix EmptyString s = true.
Proof. by destruct s. Qed.

Lemma prefix_refl (sub : string) : String.prefix sub sub = true.
Proof.
  induction sub as [|x sub IH]; cbn; [reflexivity|]. by destruct (ascii_dec x x).
Qed.

Lemma contains_prefix (sub s : string) :
  String.prefix sub s = true -> Str.contains sub s = true.
Proof. intros H. destruct s; cbn [Str.contains]; by rewrite H. Qed.

Lemma contains_cons (sub : string) (c : ascii) (s : string) :
  Str.contains sub s = true -> Str.contains sub (String c s) = true.
Proof. intros H. cbn [Str.contains]. rewrite H. apply orb_true_r. Qed.

Lemma contains_app_r (sub a b : string) :
  Str.contains sub b = true -> Str.contains sub (a ++ b) = true.
Proof.
  intros H. induction a as [|x a IH]; [exact H|]. rewrite str_app_cons.
  by apply contains_cons.
Qed.

Lemma prefix_app_l (sub a b : string) :
  String.prefix sub a = true -> String.prefix sub (a ++ b) = true.
Proof.
  revert a. induction sub as [|x sub IH]; intros a H; [apply prefix_nil|].
  destruct a as [|y a]; [done|]. rewrite str_app_cons. cbn in *.
  destruct (ascii_dec x y); [by apply IH | done].
Qed.

Lemma contains_app_l (sub a b : string) :
  Str.contains sub a = true -> Str.contains sub (a ++ b) = true.
Proof.
  induction a as [|x a IH]; cbn [Str.contains].
  - rewrite orb_false_r. intros H. by apply contains_prefix, (prefix_app_l _ "").
  - intros [H|H]%orb_true_iff.
    + by apply contains_prefix, (prefix_app_l _ (String x a)).
    + rewrite str_app_cons. by apply contains_cons, IH.
Qed.

Lemma contains_here (sub rest : string) : Str.contains sub (sub ++ rest) = true.
Proof. apply contains_prefix, prefix_app. Qed.

Lemma contains_end (sub a : string) : Str.contains sub (a ++ sub) = true.
Proof. apply contains_app_r, contains_prefix, prefix_refl. Qed.

(** a one-character pattern is found in either part of a concatenation *)
Lemma contains_char_app (c : ascii) (a b : string) :
  Str.contains (String c EmptyString) (a ++ b)
  = Str.contains (String c EmptyString) a
    || Str.contains (String c EmptyString) b.
Proof.
  induction a as [|x a IH]; [reflexivity|]. rewrite str_app_cons.
  cbn [Str.contains String.prefix]. rewrite IH.
  destruct (ascii_dec c x); [|done]. by rewrite !prefix_nil.
Qed.

(** ** The search strategy planner *)

Section PlannerProps.
Variable unicode_lower : string -> string.
Variable unicode_lstrip : string -> string.
Variable unicode_rstrip : string -> string.

Lemma rstrip_keeps_last (s : string) (c : ascii) :
  Str.is_ascii c = true -> Planner.is_space c = false ->
  Planner.rstrip unicode_rstrip (s ++ String c EmptyString)
  = (s ++ String c EmptyString)%string.
Proof.
  intros Ha Hs. unfold Planner.rstrip.
  rewrite list_ascii_app, rev_app_distr. cbn [list_ascii_of_string rev app].
  cbn [Planner.rstrip_rev]. rewrite Ha, Hs.
  cbn [rev]. rewrite rev_involutive.
  replace (list_ascii_of_string s ++ [c])%list
    with (list_ascii_of_string (s ++ String c EmptyString))
    by by rewrite list_ascii_app.
  apply string_of_list_ascii_of_string.
Qed.

(** the general query ends in a letter, so nothing is stripped on the
    right *)
Lemma rstrip_base_query (pq : P.t) :
  Planner.rstrip unicode_rstrip (Planner.base_query pq) = Planner.base_query pq.
Proof.
  unfold Planner.base_query.
  change "open source statistics"
    with ("open source statistic" ++ String "s" EmptyString)%string.
  rewrite <- !str_app_assoc. by apply rstrip_keeps_last.
Qed.

(** with an HS code, or without a product name, the general query begins
    with a letter, and stripping changes nothing *)
Lemma strip_base_query (pq : P.t) :
  Str.opt_truthy (P.hsn_code pq) = true
  \/ Str.opt_truthy (P.product_name pq) = false ->
  Planner.strip unicode_lstrip unicode_rstrip (Planner.base_query pq)
  = Planner.base_query pq.
Proof.
  intros H. unfold Planner.strip.
  assert (Planner.lstrip unicode_lstrip (Planner.base_query pq)
          = Planner.base_query pq) as ->; [|apply rstrip_base_query].
  unfold Planner.base_query.
  destruct (P.hsn_code pq) as [[|h0 h]|]; cbn [Str.truthy Str.opt_truthy] in *;
    try reflexivity;
    (destruct (P.product_name pq) as [[|p0 p]|];
     cbn [Str.truthy Str.opt_truthy] in *; [| by destruct H |];
     repeat case_bool_decide; reflexivity).
Qed.

Local Ltac find_code :=
  repeat first [ apply contains_here | apply contains_end
               | apply contains_app_r ].

(** X1: with a non-empty HS code the planner gives the general query and
    three or four source queries, and every one of them mentions the
    code. *)
Theorem decide_strategy_mentions_code (pq : P.t) (h : string) :
  P.hsn_code pq = Some h -> h <> EmptyString ->
  (4 <= length (Planner.decide_strategy unicode_lower unicode_lstrip
                  unicode_rstrip pq) <= 5)%nat
  /\ Forall (fun q => Str.contains h q = true)
       (Planner.decide_strategy unicode_lower unicode_lstrip unicode_rstrip pq).
Proof.
  intros Hh Hne. unfold Planner.decide_strategy.
  rewrite strip_base_query
    by (left; rewrite Hh; by destruct h).
  rewrite Hh. destruct h as [|h0 h]; [done|]. cbn [Str.truthy].
  unfold Planner.source_queries. split.
  - cbn [length app].
    destruct (P.country pq) as [c|]; [|cbn; lia].
    destruct (_ && _); cbn; lia.
  - apply Forall_cons. split.
    { unfold Planner.base_query. rewrite Hh. cbn [Str.truthy].
      apply contains_app_l. find_code. }
    apply Forall_app. split; [repeat constructor; find_code|].
    destruct (P.country pq) as [c|]; [|constructor].
    destruct (_ && _); repeat constructor; find_code.
Qed.

Lemma normalize_india (c : string) :
  Utils.normalize_country_name unicode_lower c = "India"
  <-> Str.lower unicode_lower c = "india".
Proof.
  unfold Utils.normalize_country_name. split.
  - destruct (Utils.country_map !! _) as [v|] eqn:E;
      cbv [default from_option id].
    + intros ->. unfold Utils.country_map in E.
      repeat (apply lookup_insert_Some in E as [[E' ?]|[_ E]];
              [by simplify_eq|]).
      by rewrite lookup_empty in E.
    + intros ->. by vm_compute in E.
  - intros ->. by vm_compute.
Qed.

Local Ltac first_char_differs H :=
  apply (f_equal (String.get 0)) in H; cbv in H; discriminate H.

(** X2: with a non-empty HS code, the query for the Indian source is among
    the planned ones exactly when the query's country, lower-cased, is
    [india]. *)
Theorem decide_strategy_india (pq : P.t) (h : string) :
  P.hsn_code pq = Some h -> h <> EmptyString ->
  ("DGFT India HSN " ++ h ++ " " ++ Planner.py_str (P.intent pq) ++ " data")%string
    ∈ Planner.decide_strategy unicode_lower unicode_lstrip unicode_rstrip pq
  <-> exists c, P.country pq = Some c /\ Str.lower unicode_lower c = "india".
Proof.
  intros Hh Hne. unfold Planner.decide_strategy.
  rewrite strip_base_query by (left; rewrite Hh; by destruct h).
  rewrite Hh. destruct h as [|h0 h]; [done|]. cbn [Str.truthy].
  set (dgft := ("DGFT India HSN " ++ _)%string).
  assert (dgft ∈ Planner.source_queries unicode_lower pq (String h0 h)
          <-> exists c, P.country pq = Some c
                        /\ Str.lower unicode_lower c = "india") as <-.
  { unfold Planner.source_queries. rewrite elem_of_app, !elem_of_cons.
    destruct (P.country pq) as [c|].
    - destruct (Str.truthy c) eqn:Ht; cbn [andb].
      + destruct (decide (Utils.normalize_country_name unicode_lower c = "India"))
          as [Hi|Hi].
        * rewrite (bool_decide_eq_true_2 _ Hi).
          split; [|intros _; right; left].
          intros _. exists c. split; [done|]. by apply normalize_india.
        * rewrite (bool_decide_eq_false_2 _ Hi). split.
          -- intros [[H|[H|[H|H%elem_of_nil]]]|H%elem_of_nil]; try done;
               first_char_differs H.
          -- intros (c' & [= <-] & Hl). by apply normalize_india in Hl.
      + split.
        * intros [[H|[H|[H|H%elem_of_nil]]]|H%elem_of_nil]; try done;
            first_char_differs H.
        * intros (c' & [= <-] & Hl). destruct c; [|done]. by vm_compute in Hl.
    - split.
      + intros [[H|[H|[H|H%elem_of_nil]]]|H%elem_of_nil]; try done;
          first_char_differs H.
      + by intros (? & ? & _). }
  rewrite elem_of_cons. split; [|by right].
  intros [H|H]; [|done]. exfalso. unfold Planner.base_query in H.
  rewrite Hh in H. first_char_differs H.
Qed.

(** X3: when the query names a country and the general query begins with
    its HS code or its intent words, the general query ends with [from],
    for an export, or [to], otherwise, followed by the country as given
    and the fixed suffix. *)
Theorem decide_strategy_direction (pq : P.t) (c : string) :
  P.country pq = Some c -> c <> EmptyString ->
  Str.opt_truthy (P.hsn_code pq) = true
  \/ Str.opt_truthy (P.product_name pq) = false ->
  exists front rest,
    Planner.decide_strategy unicode_lower unicode_lstrip unicode_rstrip pq
    = (front
       ++ (if bool_decide (P.intent pq = Some "export") then "from " else "to ")
       ++ c ++ " open source statistics")%string :: rest.
Proof.
  intros Hc Hne Hfront. unfold Planner.decide_strategy.
  rewrite (strip_base_query pq Hfront).
  exists ((match P.hsn_code pq with
           | Some h => if Str.truthy h then "HSN " ++ h ++ " " else EmptyString
           | None => EmptyString
           end)
          ++ (match P.product_name pq with
              | Some p => if Str.truthy p then p ++ " " else EmptyString
              | None => EmptyString
              end)
          ++ (if bool_decide (P.intent pq = Some "import") then "import data "
              else if bool_decide (P.intent pq = Some "export")
                   then "export data " else "trade data "))%string.
  eexists. f_equal. unfold Planner.base_query. rewrite Hc.
  destruct c as [|c0 c]; [done|]. cbn [Str.truthy].
  rewrite !str_app_assoc. do 3 f_equal.
  by destruct (bool_decide (P.intent pq = Some "export"));
    rewrite !str_app_assoc.
Qed.

End PlannerProps.

(** ** Batches and the cache of links *)

Section BatchProps.
Variable unicode_lower : string -> string.
Variable hash : string -> Z.
Variable netloc : string -> string.
Variable perform_google_search : string -> list Synthesizer.SearchResult.


(** X4: a batch has one record for each of the nine listed partners, or
    for eight of them when one is the reporting country of the query. *)
Theorem batch_size (url query : string) (pq : P.t) (w : world) :
  length (fst (Synthesizer._simulate_scrape_from_url unicode_lower hash netloc
                 url query pq w))
  = if existsb (Synthesizer.is_reporting_country unicode_lower
                  (Synthesizer.target_reporting_country_normalized
                     unicode_lower pq))
         Synthesizer.possible_partner_countries
    then 8%nat else 9%nat.
Proof.
  rewrite <- kept_partners_length.
  rewrite <- (length_fmap T.country), (simulate_countries unicode_lower hash netloc).
  apply length_fmap.
Qed.

(** X5: every record [fetch_data] returns has a partner country, a
    volume, the hundredth of that volume as secondary volume, the year
    2023 and a non-empty source. *)
Theorem fetch_data_core_fields (queries : list string) (pq : P.t) (w : world) :
  Forall (fun r =>
            is_Some (T.country r)
            /\ (exists v, T.volume_usd r = Some v
                          /\ T.volume_unit r
                             = Some (PrimFloat.div v 100%float))
            /\ T.year r = Some 2023
            /\ exists s, T.source r = Some s /\ s <> EmptyString)
    (fst (Synthesizer.fetch_data unicode_lower hash netloc
            perform_google_search queries pq w)).
Proof.
  apply fetch_data_Forall. intros url query w'.
  apply simulate_partners_Forall. intros p v w''.
  split; [by eexists|]. split; [by eexists|]. split; [done|].
  eexists. split; [reflexivity|]. cbn [Str.or_else].
  by destruct (netloc url).
Qed.

(** A draw is compared with the floats [0.1] and [0.05]. For a multiple
    of 2^-53 the comparison with either float and the comparison with
    the decimal it is written as agree. *)
Lemma draw_thresholds (k : Z) :
  Float.number 0.1%float = Some (Float.Finite (7205759403792794 # 2 ^ 56))
  /\ Float.number 0.05%float = Some (Float.Finite (7205759403792794 # 2 ^ 57))
  /\ ((0.1 < k # 2 ^ 53)%Q <-> (7205759403792794 # 2 ^ 56 < k # 2 ^ 53)%Q)
  /\ ((0.05 < k # 2 ^ 53)%Q <-> (7205759403792794 # 2 ^ 57 < k # 2 ^ 53)%Q).
Proof.
  split; [by vm_compute|]. split; [by vm_compute|].
  unfold Qlt. cbn [Qnum Qden].
  change (Z.pos (2 ^ 53)) with 9007199254740992%Z.
  change (Z.pos (2 ^ 56)) with 72057594037927936%Z.
  change (Z.pos (2 ^ 57)) with 144115188075855872%Z.
  split; split; intros H; lia.
Qed.

(** X6: a synthesized record never carries an HS code other than the
    query's, and its product description is the query's product name or
    the word Generic followed by the HS code, or by Product when there is
    none. *)
Theorem fetch_data_product_fields (queries : list string) (pq : P.t)
    (w : world) :
  Forall (fun r =>
            (T.hscode r = None \/ T.hscode r = P.hsn_code pq)
            /\ (T.product_description r = P.product_name pq
                \/ T.product_description r
                   = Some ("Generic " ++ Str.or_else (P.hsn_code pq) "Product")%string))
    (fst (Synthesizer.fetch_data unicode_lower hash netloc
            perform_google_search queries pq w)).
Proof.
  apply fetch_data_Forall. intros url query w'.
  apply simulate_partners_Forall. intros p v w''.
  set (r := fst _).
  change (T.hscode r) with
    (if Qlt_le_dec 0.1 (fst (random (snd (choice (Some "kg")
                         [Some "units"; Some "tons"; None] w''))))
     then P.hsn_code pq else None).
  change (T.product_description r) with
    (if Qlt_le_dec 0.05
          (fst (random (snd (random (snd (choice (Some "kg")
                  [Some "units"; Some "tons"; None] w''))))))
     then P.product_name pq
     else Some ("Generic " ++ Str.or_else (P.hsn_code pq) "Product")%string).
  split; destruct (Qlt_le_dec _ _); auto.
Qed.

End BatchProps.

Section CacheProps.
Variable unicode_lower : string -> string.
Variable hash : string -> Z.
Variable netloc : string -> string.
Variable perform_google_search : string -> list Synthesizer.SearchResult.

Local Abbreviation simulate :=
  (Synthesizer._simulate_scrape_from_url unicode_lower hash netloc).
Local Abbreviation fetch_results :=
  (Synthesizer.fetch_results unicode_lower hash netloc).
Local Abbreviation fetch_data :=
  (Synthesizer.fetch_data unicode_lower hash netloc perform_google_search).
Local Abbreviation eligible := (Synthesizer.eligible unicode_lower).
Local Abbreviation cache_has w l := (is_Some (scraped_data_cache w !! l)).

(** synthesis draws from the generator and leaves the cache alone *)
Lemma simulate_cache (url query : string) (pq : P.t) (w : world) :
  scraped_data_cache (snd (simulate url query pq w)) = scraped_data_cache w.
Proof.
  unfold Synthesizer._simulate_scrape_from_url.
  generalize Synthesizer.possible_partner_countries. intros partners.
  revert w. induction partners as [|p ps IH]; intros w; [done|].
  cbn [Synthesizer.simulate_partners].
  destruct (Synthesizer.is_reporting_country _ _ p); [apply IH|].
  unfold mbind, M_bind, mret, M_ret. cbn [fst snd]. by rewrite IH.
Qed.

Lemma simulate_nonempty (url query : string) (pq : P.t) (w : world) :
  fst (simulate url query pq w) <> [].
Proof.
  intros E. pose proof (kept_partners_length unicode_lower pq) as H.
  rewrite <- (length_fmap Some),
    <- (simulate_countries unicode_lower hash netloc url query pq w), E in H.
  by destruct (existsb _ _).
Qed.

(** one step of the loop over the results, for a link that is eligible
    and not yet cached *)
Lemma fetch_results_fresh (query : string) (pq : P.t)
    (res : Synthesizer.SearchResult) (rest : list Synthesizer.SearchResult)
    (l : string) (w : world) :
  Synthesizer.link res = Some l -> eligible (Some l) = true ->
  scraped_data_cache w !! l = None ->
  exists w',
    scraped_data_cache w' = <[l := true]> (scraped_data_cache w)
    /\ fetch_results query pq (res :: rest) w
       = ((fst (simulate l query pq w) ++ fst (fetch_results query pq rest w'))%list,
          snd (fetch_results query pq rest w')).
Proof.
  intros Hl He Hc. cbn [Synthesizer.fetch_results]. rewrite Hl, He.
  unfold mbind at 1. unfold M_bind at 1. unfold cached at 1 2. cbn [fst snd].
  rewrite Hc. rewrite bool_decide_eq_false_2 by by intros [? ?].
  unfold mbind, M_bind, mret, M_ret. cbn [fst snd].
  pose proof (simulate_nonempty l query pq w) as Hne.
  pose proof (simulate_cache l query pq w) as Hsc.
  destruct (simulate l query pq w) as [[|r rs] w1]; [done|]. cbn [fst snd] in *.
  eexists. split; [|reflexivity]. cbn. by rewrite Hsc.
Qed.

(** one step of the loop for a result that is skipped *)
Lemma fetch_results_skip (query : string) (pq : P.t)
    (res : Synthesizer.SearchResult) (rest : list Synthesizer.SearchResult)
    (w : world) :
  (forall l, Synthesizer.link res = Some l -> eligible (Some l) = true ->
             cache_has w l) ->
  fetch_results query pq (res :: rest) w = fetch_results query pq rest w.
Proof.
  intros H. cbn [Synthesizer.fetch_results].
  destruct (Synthesizer.link res) as [l|]; [|done].
  destruct (eligible (Some l)) eqn:He; [|done].
  unfold mbind at 1. unfold M_bind at 1. unfold cached at 1 2. cbn [fst snd].
  by rewrite bool_decide_eq_true_2 by by apply H.
Qed.

Lemma fetch_results_cache (query : string) (pq : P.t)
    (results : list Synthesizer.SearchResult) (w : world) (l : string) :
  cache_has (snd (fetch_results query pq results w)) l
  <-> cache_has w l
      \/ exists res, res ∈ results /\ Synthesizer.link res = Some l
                     /\ eligible (Some l) = true.
Proof.
  revert w. induction results as [|res rest IH]; intros w.
  { cbn. split; [by left | intros [?|(? & ?%elem_of_nil & _)]; done]. }
  destruct (Synthesizer.link res) as [l'|] eqn:Hl.
  2:{ rewrite fetch_results_skip by (intros ?; by rewrite Hl).
      rewrite IH. setoid_rewrite elem_of_cons. split.
      - intros [?|(r & ? & ? & ?)]; [by left | right; exists r; eauto].
      - intros [?|(r & [->|?] & Hr & ?)]; [by left| |right; exists r; eauto].
        by rewrite Hl in Hr. }
  destruct (eligible (Some l')) eqn:He.
  2:{ rewrite fetch_results_skip
        by (intros l0 Hl0 He0; rewrite Hl in Hl0; simplify_eq; congruence).
      rewrite IH. setoid_rewrite elem_of_cons. split.
      - intros [?|(r & ? & ? & ?)]; [by left | right; exists r; eauto].
      - intros [?|(r & [->|?] & Hr & ?)]; [by left| |right; exists r; eauto].
        rewrite Hl in Hr. simplify_eq. congruence. }
  destruct (scraped_data_cache w !! l') as [b|] eqn:Hc.
  { rewrite fetch_results_skip
      by (intros ? Hl2; rewrite Hl in Hl2; simplify_eq; by rewrite Hc).
    rewrite IH. setoid_rewrite elem_of_cons. split.
    { intros [?|(r & ? & ? & ?)]; [by left | right; exists r; eauto]. }
    intros [?|(r & [->|?] & Hr & ?)]; [by left| |right; eauto].
    rewrite Hl in Hr. simplify_eq. left. by rewrite Hc. }
  destruct (fetch_results_fresh query pq res rest l' w Hl He Hc)
    as (w' & Hw' & ->).
  cbn [snd]. rewrite IH, Hw', lookup_insert_is_Some.
  setoid_rewrite elem_of_cons. split.
  - intros [[->|[_ ?]]|(r & ? & ? & ?)]; [right; exists res; eauto|by left|].
    right. exists r. eauto.
  - intros [?|(r & [->|?] & Hr & ?)].
    + left. destruct (decide (l' = l)); [by left | by right].
    + rewrite Hl in Hr. simplify_eq. left. by left.
    + right. exists r. eauto.
Qed.

Lemma fetch_data_cache_iff (queries : list string) (pq : P.t) (w : world)
    (l : string) :
  is_Some (scraped_data_cache (snd (fetch_data queries pq w)) !! l)
  <-> is_Some (scraped_data_cache w !! l)
      \/ exists query res,
           query ∈ queries /\ res ∈ perform_google_search query
           /\ Synthesizer.link res = Some l
           /\ Synthesizer.eligible unicode_lower (Some l) = true.
Proof.
  revert w. induction queries as [|q qs IH]; intros w.
  { cbn. split; [by left | intros [?|(? & ? & ?%elem_of_nil & _)]; done]. }
  cbn [Synthesizer.fetch_data]. unfold mbind, M_bind, mret, M_ret.
  cbn [fst snd]. rewrite IH, fetch_results_cache.
  setoid_rewrite elem_of_cons. split.
  - intros [[?|(r & ? & ? & ?)]|(q' & r & ? & ? & ? & ?)];
      [by left | right; exists q, r; eauto | right; exists q', r; eauto].
  - intros [?|(q' & r & [->|?] & ? & ? & ?)];
      [by left; left | left; right; eauto | right; exists q', r; eauto].
Qed.

Lemma fetch_results_all_cached (query : string) (pq : P.t)
    (results : list Synthesizer.SearchResult) (w : world) :
  (forall res l, res ∈ results -> Synthesizer.link res = Some l ->
                 eligible (Some l) = true -> cache_has w l) ->
  fetch_results query pq results w = ([], w).
Proof.
  induction results as [|res rest IH]; intros H; [done|].
  rewrite fetch_results_skip by (intros l; apply H; left).
  apply IH. intros r l Hr. apply H. by right.
Qed.

Lemma fetch_data_all_cached (queries : list string) (pq : P.t) (w : world) :
  (forall query res l,
      query ∈ queries -> res ∈ perform_google_search query ->
      Synthesizer.link res = Some l -> eligible (Some l) = true ->
      cache_has w l) ->
  fetch_data queries pq w = ([], w).
Proof.
  induction queries as [|q qs IH]; intros H; [done|].
  cbn [Synthesizer.fetch_data]. unfold mbind, M_bind, mret, M_ret.
  rewrite fetch_results_all_cached by (intros r l; apply H; left).
  cbn [fst snd]. rewrite IH; [done|]. intros q' r l Hq. apply H. by right.
Qed.

(** X7: after [fetch_data] the cache holds the links it held before and
    the links of the search results that are eligible (present, and
    without pdf or excel in their lower-cased text), and no others. *)
Theorem fetch_data_cache (queries : list string) (pq : P.t) (w : world)
    (l : string) :
  is_Some (scraped_data_cache
             (snd (Synthesizer.fetch_data unicode_lower hash netloc
                     perform_google_search queries pq w)) !! l)
  <-> is_Some (scraped_data_cache w !! l)
      \/ exists query res,
           query ∈ queries /\ res ∈ perform_google_search query
           /\ Synthesizer.link res = Some l
           /\ Synthesizer.eligible unicode_lower (Some l) = true.
Proof. apply fetch_data_cache_iff. Qed.

(** X8: the cache outlives a call: a second [fetch_data] for the same
    search queries, whatever the parsed query, finds every eligible link
    cached, returns no record and changes nothing. *)
Theorem fetch_data_again (queries : list string) (pq pq' : P.t) (w : world) :
  Synthesizer.fetch_data unicode_lower hash netloc perform_google_search
    queries pq'
    (snd (Synthesizer.fetch_data unicode_lower hash netloc
            perform_google_search queries pq w))
  = ([], snd (Synthesizer.fetch_data unicode_lower hash netloc
                perform_google_search queries pq w)).
Proof.
  apply fetch_data_all_cached. intros q r l Hq Hr Hl He.
  apply fetch_data_cache_iff. right. exists q, r. eauto.
Qed.

End CacheProps.

(** ** More on the recommendation aggregator *)

Section AggregatorMore.
Import Pandas Aggregator.

Local Abbreviation frame trade_data :=
  (from_records (map (T.model_dump false) trade_data)).
Variable float64_sum : list float -> float.
Local Abbreviation groups trade_data :=
  (groupby_sum float64_sum (map T.country trade_data)
     (map coerced_volume trade_data)).

Lemma unique_from_NoDup (seen l : list string) : NoDup (unique_from seen l).
Proof.
  revert seen. induction l as [|x l IH]; intros seen; cbn; [constructor|].
  case_bool_decide; [apply IH|]. constructor; [|apply IH].
  rewrite unique_from_elem. intros [_ Hx]. apply Hx. left.
Qed.

Lemma unique_NoDup (l : list string) : NoDup (unique l).
Proof. apply unique_from_NoDup. Qed.

Lemma groups_keys (trade_data : list T.t) :
  map fst (groups trade_data)
  = sort_str (unique (omap id (map T.country trade_data))).
Proof. unfold groupby_sum. rewrite map_map. cbn [fst]. apply map_id. Qed.

Lemma groups_NoDup (trade_data : list T.t) :
  NoDup (map fst (groups trade_data)).
Proof.
  rewrite groups_keys. unfold sort_str. rewrite sort_by_perm.
  apply unique_NoDup.
Qed.

(** a country of the input has an entry in the grouped sums *)
Lemma groups_has (trade_data : list T.t) (c : string) :
  (exists r, r ∈ trade_data /\ T.country r = Some c) ->
  (c, country_volume float64_sum trade_data c) ∈ groups trade_data.
Proof.
  intros (r & Hr & Hc). unfold groupby_sum.
  apply list_elem_of_In, in_map_iff. exists c.
  split; [by rewrite group_sum_country_volume|].
  apply list_elem_of_In. unfold sort_str.
  rewrite sort_by_elem, unique_elem, list_elem_of_omap.
  exists (Some c). split; [|done]. rewrite <- Hc.
  apply list_elem_of_In, in_map. by apply list_elem_of_In.
Qed.

Lemma sorted_app_order {A : Type} (R : A -> A -> Prop) (l1 l2 : list A) :
  StronglySorted R (l1 ++ l2) ->
  forall x y, x ∈ l1 -> y ∈ l2 -> R x y.
Proof.
  induction l1 as [|a l1 IH]; intros Hs x y Hx Hy;
    [by apply elem_of_nil in Hx|].
  apply StronglySorted_inv in Hs as [Hs Hall].
  apply elem_of_cons in Hx as [->|Hx]; [|by apply IH].
  apply (proj1 (Forall_forall _ _) Hall), elem_of_app. by right.
Qed.

Lemma drop_app_elem {A : Type} (n : nat) (l1 l2 : list A) (x : A) :
  x ∈ drop n (l1 ++ l2) -> x ∉ l2 -> x ∈ drop n l1.
Proof.
  rewrite drop_app. intros [H|H%subseteq_drop]%elem_of_app; done.
Qed.

(** X10: the countries the top-markets recommendation lists are distinct,
    and a country of the input that it does not list, whose summed
    volume is a number, has a summed volume no larger than that of each
    of the three that are listed. *)
Theorem top_markets_are_largest (trade_data : list T.t) (pq : P.t)
    (i : string) (response : Json.reply) :
  (exists r, r ∈ trade_data /\ is_Some (T.volume_usd r)) ->
  (exists r, r ∈ trade_data /\ is_Some (T.country r)) ->
  P.intent pq = Some i ->
  exists top rest,
    generate_recommendations float64_sum trade_data pq response
    = Ok (mkRecommendation
            ("Top 3 " ++ (i ++ (if Str.truthy i then "ing" else EmptyString))
                      ++ " Markets by Volume")%string
            (join ", " (map description_part top)) :: rest)
    /\ NoDup (map fst top)
    /\ forall c, (exists r, r ∈ trade_data /\ T.country r = Some c) ->
         c ∈ map fst top
         \/ (length top = 3%nat
             /\ (Float.is_nan (country_volume float64_sum trade_data c)
                 = false ->
                 Forall (fun entry =>
                           Float.leb (country_volume float64_sum trade_data c)
                             (snd entry) = true) top)).
Proof.
  intros Hv Hc Hi. exists (nlargest 3 (groups trade_data)).
  unfold generate_recommendations.
  destruct trade_data as [|r0 l] eqn:Etd;
    [by destruct Hv as (? & ?%elem_of_nil & _)|].
  rewrite <- Etd in *.
  rewrite (top_markets_emits float64_sum _ _ i Hv Hc Hi).
  eexists. split; [reflexivity|]. unfold nlargest.
  set (numbers := sort_by not_smaller
                    (List.filter (fun x => negb (isna x)) (groups trade_data))).
  set (nans := List.filter isna (groups trade_data)).
  assert (ranked (groups trade_data) = numbers ++ nans)%list as Er by done.
  assert (StronglySorted (fun x y => not_smaller x y = true) numbers) as Hs
    by apply ranked_numbers.
  assert (NoDup (map fst (ranked (groups trade_data)))) as Hnd.
  { rewrite ranked_perm. apply groups_NoDup. }
  split.
  { rewrite <- (take_drop 3 (ranked _)), map_app in Hnd.
    by apply NoDup_app in Hnd as [? _]. }
  intros c Hin%groups_has. set (v := country_volume float64_sum trade_data c) in *.
  assert ((c, v) ∈ ranked (groups trade_data)) as Hin'
    by by rewrite ranked_perm.
  rewrite <- (take_drop 3 (ranked _)) in Hin'.
  apply elem_of_app in Hin' as [Ht|Hd].
  { left. apply list_elem_of_In, in_map_iff. exists (c, v).
    split; [done | by apply list_elem_of_In]. }
  right. split.
  { rewrite length_take. destruct (drop 3 (ranked _)) eqn:E;
      [by apply elem_of_nil in Hd|].
    assert (3 < length (ranked (groups trade_data)))%nat; [|lia].
    apply (f_equal length) in E. rewrite length_drop in E. cbn in E. lia. }
  intros Hnum. rewrite Er in Hd |- *.
  apply drop_app_elem in Hd.
  2:{ intros [_ Hna]%list_elem_of_In%filter_In. unfold isna in Hna.
      cbn [snd] in Hna. congruence. }
  assert (3 < length numbers)%nat as Hlen.
  { destruct (drop 3 numbers) eqn:E; [by apply elem_of_nil in Hd|].
    apply (f_equal length) in E. rewrite length_drop in E. cbn in E. lia. }
  rewrite take_app_le by lia.
  rewrite <- (take_drop 3 numbers) in Hs.
  apply Forall_forall. intros e He.
  apply (sorted_app_order _ _ _ Hs e _ He Hd).
Qed.

End AggregatorMore.

Section ModelStep.
Import Pandas Aggregator Json.
Variable float64_sum : list float -> float.

Lemma append_entries_sound (entries : list json) (rec : Recommendation) :
  rec ∈ append_entries entries ->
  exists o, JObject o ∈ entries
            /\ get "title" o = Some (JString (title rec))
            /\ get "description" o = Some (JString (description rec)).
Proof.
  induction entries as [|e entries IH]; [by intros ?%elem_of_nil|].
  assert (rec ∈ append_entries entries ->
          exists o, JObject o ∈ e :: entries
                    /\ get "title" o = Some (JString (title rec))
                    /\ get "description" o = Some (JString (description rec)))
    as Hrest.
  { intros (o & ? & ?)%IH. exists o. split; [by right | done]. }
  destruct e as [| | |s|a|o]; cbn [append_entries];
    try by intros ?%elem_of_nil.
  - destruct (_ && _); [by intros ?%elem_of_nil | done].
  - destruct (_ && _); [by intros ?%elem_of_nil | done].
  - destruct (get "title" o) as [t|] eqn:Et; [|done].
    destruct (get "description" o) as [d|] eqn:Ed; [|done].
    destruct t; cbn [as_str]; try by intros ?%elem_of_nil.
    destruct d; cbn [as_str]; try by intros ?%elem_of_nil.
    intros [->|H]%elem_of_cons; [|by apply Hrest].
    exists o. split; [left | done].
Qed.

(** X12: a recommendation taken from the model's reply is an entry of the
    reply's list (the reply itself, or its [recommendations] key) that is
    an object with a string under [title] and a string under
    [description]. *)
Theorem model_recommendations_well_formed (df : DataFrame) (response : reply)
    (rec : Recommendation) :
  rec ∈ llm_recommendations df response ->
  exists entries o,
    (response = Content (JArray entries)
     \/ exists obj, response = Content (JObject obj)
                    /\ get "recommendations" obj = Some (JArray entries))
    /\ JObject o ∈ entries
    /\ get "title" o = Some (JString (title rec))
    /\ get "description" o = Some (JString (description rec)).
Proof.
  unfold llm_recommendations.
  destruct (forallb _ _); [|by intros ?%elem_of_nil].
  destruct response as [| |[| | | |entries|obj]];
    try by intros ?%elem_of_nil.
  - intros (o & ? & ?)%append_entries_sound. exists entries, o. eauto.
  - destruct (get "recommendations" obj) as [[| | | |entries|]|] eqn:E;
      try by intros ?%elem_of_nil.
    intros (o & ? & ?)%append_entries_sound. exists entries, o.
    split; [right; eauto | done].
Qed.

(** X11: the model's reply decides neither whether the call raises nor
    what the statistics give: the list for a failed model call is a prefix
    of the list for any reply, except that the General Advice entry
    stands only when nothing else does. *)
Theorem model_reply_only_appends (trade_data : list T.t) (pq : P.t)
    (response : reply) :
  match generate_recommendations float64_sum trade_data pq CallFailed with
  | Raise e => generate_recommendations float64_sum trade_data pq response = Raise e
  | Ok base =>
      exists extra,
        generate_recommendations float64_sum trade_data pq response
        = Ok (base ++ extra)%list
        \/ (base = [general_advice] /\ extra <> []
            /\ generate_recommendations float64_sum trade_data pq response = Ok extra)
  end.
Proof.
  unfold generate_recommendations.
  destruct trade_data as [|r0 l]; [by exists []; left|].
  set (df := from_records _). destruct (top_markets _ df pq) as [top|e]; [|done].
  assert (llm_recommendations df CallFailed = []) as ->
    by (unfold llm_recommendations; by destruct (forallb _ _)).
  set (det := (top ++ modal df "freight_term" freight_recommendation
                   ++ modal df "package_type" package_recommendation)%list).
  replace (top ++ modal df "freight_term" freight_recommendation
               ++ modal df "package_type" package_recommendation ++ [])%list
    with det by (unfold det; by rewrite app_nil_r).
  replace (top ++ modal df "freight_term" freight_recommendation
               ++ modal df "package_type" package_recommendation
               ++ llm_recommendations df response)%list
    with (det ++ llm_recommendations df response)%list
    by (unfold det; by rewrite <- !app_assoc).
  exists (llm_recommendations df response).
  destruct det as [|d det'].
  - destruct (llm_recommendations df response) eqn:E; [by left|].
    right. by rewrite app_nil_l.
  - by left.
Qed.

End ModelStep.

Section Pipeline.
Import Pandas Aggregator.
Variable float64_sum : list float -> float.
Variable unicode_lower : string -> string.
Variable hash : string -> Z.
Variable netloc : string -> string.
Variable perform_google_search : string -> list Synthesizer.SearchResult.

Lemma fetch_data_aggregable (queries : list string) (pq : P.t) (w : world) :
  Forall (fun r => is_Some (T.country r) /\ is_Some (T.volume_usd r))
    (fst (Synthesizer.fetch_data unicode_lower hash netloc
            perform_google_search queries pq w)).
Proof.
  apply fetch_data_Forall. intros url query w'.
  apply simulate_partners_Forall. intros p v w''. split; by eexists.
Qed.

(** X9: on the records [fetch_data] returns, and with an intent present,
    [generate_recommendations] does not raise: it gives the fallback
    entry when no record was synthesized, and otherwise a list that
    begins with the top-markets recommendation. *)
Theorem synthesized_data_aggregates (queries : list string) (pq : P.t)
    (i : string) (w : world) (response : Json.reply) :
  P.intent pq = Some i ->
  let data := fst (Synthesizer.fetch_data unicode_lower hash netloc
                     perform_google_search queries pq w) in
  (data = [] /\ generate_recommendations float64_sum data pq response = Ok [no_data])
  \/ exists details rest,
       generate_recommendations float64_sum data pq response
       = Ok (mkRecommendation
               ("Top 3 " ++ (i ++ (if Str.truthy i then "ing" else EmptyString))
                         ++ " Markets by Volume")%string details :: rest).
Proof.
  intros Hi. cbv zeta.
  pose proof (fetch_data_aggregable queries pq w) as Hall.
  set (data := fst _) in *. clearbody data.
  destruct data as [|r0 l]; [by left|]. right.
  apply Forall_cons in Hall as [[Hc Hv] _].
  unfold generate_recommendations.
  rewrite (top_markets_emits float64_sum (r0 :: l) pq i);
    [by eexists _, _| | |done];
    exists r0; (split; [left | done]).
Qed.

End Pipeline.

(** ** More on the query intent extractor *)

Section PerceiveMore.
Import Json.

Lemma mapM_as_str (l : list string) : mapM as_str (map JString l) = Some l.
Proof. induction l as [|s l IH]; [done|]. cbn. by rewrite IH. Qed.

(** X13: [parse_query] reads back what [model_dump_json] writes: a reply
    that is the dump of a parsed query is parsed to that query. *)
Theorem parse_query_model_dump (pq : P.t) :
  Perceive.parse_query (Content (Dump.model_dump pq)) = pq.
Proof.
  destruct pq as [h p c i k].
  unfold Perceive.parse_query, Perceive.validate, Dump.model_dump.
  cbn [P.hsn_code P.product_name P.country P.intent P.keywords].
  assert (str_list "keywords"
            [("hsn_code", Dump.json_of_opt h);
             ("product_name", Dump.json_of_opt p);
             ("country", Dump.json_of_opt c); ("intent", Dump.json_of_opt i);
             ("keywords", JArray (map JString k))] = Some k) as ->
    by apply mapM_as_str.
  by destruct h, p, c, i.
Qed.

Lemma validate_needs_fields (o : list (string * json)) (pq : P.t) :
  Perceive.validate (JObject o) = Some pq ->
  is_Some (optional_str "hsn_code" o)
  /\ is_Some (optional_str "product_name" o)
  /\ is_Some (optional_str "country" o)
  /\ is_Some (optional_str "intent" o)
  /\ is_Some (str_list "keywords" o).
Proof.
  cbn [Perceive.validate].
  destruct (optional_str "hsn_code" o); [|done].
  destruct (optional_str "product_name" o); [|done].
  destruct (optional_str "country" o); [|done].
  destruct (optional_str "intent" o); [|done].
  destruct (str_list "keywords" o); [|done].
  intros _. repeat split; by eexists.
Qed.

(** X14: one ill-typed value voids the whole reply: when the value under
    one of the four string keys is neither null nor a string, or the value
    under [keywords] is not a list (null included), [parse_query] returns
    the empty parsed query, whatever the other keys hold. *)
Theorem parse_query_ill_typed (o : list (string * json)) (k : string)
    (v : json) :
  Json.get k o = Some v ->
  (k ∈ ["hsn_code"; "product_name"; "country"; "intent"]
   /\ v <> JNull /\ (forall s, v <> JString s))
  \/ (k = "keywords" /\ forall l, v <> JArray l) ->
  Perceive.parse_query (Content (JObject o)) = P.empty.
Proof.
  intros Hget Hbad. unfold Perceive.parse_query.
  destruct (Perceive.validate (JObject o)) as [pq|] eqn:E; [|done].
  exfalso. apply validate_needs_fields in E as (H1 & H2 & H3 & H4 & H5).
  destruct Hbad as [(Hk & Hnull & Hstr)|[-> Hlist]].
  - assert (is_Some (optional_str k o)) as [x Hx].
    { repeat (apply elem_of_cons in Hk as [->|Hk]; [done|]).
      by apply elem_of_nil in Hk. }
    unfold optional_str in Hx. rewrite Hget in Hx.
    destruct v; try done. by apply (Hstr s).
  - destruct H5 as [x Hx]. unfold str_list in Hx. rewrite Hget in Hx.
    destruct v; try done. by apply (Hlist l).
Qed.

End PerceiveMore.

(** ** More on the report exporter *)

Section ExporterMore.
Import Pandas.

(** X15: the exported table has no column twice; its rows are the dumps
    of the records, in order, or none at all when no record has a value;
    and every key of every row is one of its columns. *)
Theorem export_to_excel_table (trade_data : list T.t) :
  NoDup (columns (Exporter.export_to_excel trade_data))
  /\ (rows (Exporter.export_to_excel trade_data)
      = map (T.model_dump true) trade_data
      \/ rows (Exporter.export_to_excel trade_data) = []
         /\ forall r lbl, r ∈ trade_data -> ~ present true r lbl)
  /\ Forall (fun row => forall k, k ∈ map fst row ->
                          k ∈ columns (Exporter.export_to_excel trade_data))
       (rows (Exporter.export_to_excel trade_data)).
Proof.
  unfold Exporter.export_to_excel.
  destruct trade_data as [|r0 l] eqn:E.
  { split; [constructor|]. split; [by left | constructor]. }
  rewrite <- E. set (df := from_records (map (T.model_dump true) trade_data)).
  assert (Forall (fun row => forall k, k ∈ map fst row -> k ∈ columns df)
            (rows df)) as Hkeys.
  { apply Forall_forall. intros row Hrow k Hk.
    apply from_records_columns. eauto. }
  destruct (empty df) eqn:Hempty.
  - split; [by apply (bool_decide_unpack _); vm_compute|].
    split; [|constructor]. right. split; [done|]. intros r lbl Hr Hp.
    assert (lbl ∈ columns df) as Hin by (apply dumped_columns; eauto).
    unfold empty in Hempty. destruct (columns df); [by apply elem_of_nil in Hin|].
    cbn [rows df from_records] in Hempty. by rewrite E in Hempty.
  - split; [apply unique_NoDup|]. split; [by left | done].
Qed.

End ExporterMore.

(** ** The name of the exported file *)

Section FileNames.

Lemma contains_slash_cons (c : ascii) (s : string) :
  Str.contains "/" (String c s)
  = (if Ascii.eqb c "/" then true else Str.contains "/" s).
Proof.
  cbn [Str.contains String.prefix].
  destruct (Ascii.eqb_spec c "/") as [->|Hne].
  - cbn. by rewrite prefix_nil.
  - by destruct (ascii_dec "/" c) as [<-|_].
Qed.

Lemma path_name_length (path : string) :
  (String.length (Main.path_name path) <= String.length path)%nat
  /\ (Str.contains "/" path = true ->
      String.length (Main.path_name path) < String.length path)%nat.
Proof.
  induction path as [|c rest [IH1 IH2]]; [done|].
  rewrite contains_slash_cons. cbn [Main.path_name String.length].
  destruct (Str.contains "/" rest) eqn:E.
  - specialize (IH2 eq_refl). split; intros; lia.
  - destruct (Ascii.eqb c "/"); cbn [String.length]; split; intros; (done || lia).
Qed.

(** the name of a path is the path itself exactly when it has no slash *)
Lemma path_name_id (path : string) :
  Main.path_name path = path <-> Str.contains "/" path = false.
Proof.
  split.
  - intros E. destruct (Str.contains "/" path) eqn:Hc; [|done].
    apply path_name_length in Hc. rewrite E in Hc. lia.
  - induction path as [|c rest IH]; [done|].
    rewrite contains_slash_cons. cbn [Main.path_name].
    destruct (Ascii.eqb c "/"); [done|]. by intros ->.
Qed.

Lemma replace_removes (a b : ascii) (s : string) :
  a <> b -> Str.contains (String a EmptyString) (Main.replace a b s) = false.
Proof.
  intros Hne. induction s as [|c s IH]; [done|].
  cbn [Main.replace Str.contains String.prefix]. rewrite IH, orb_false_r.
  destruct (Ascii.eqb_spec c a) as [->|Hc].
  - by destruct (ascii_dec a b).
  - by destruct (ascii_dec a c) as [<-|_].
Qed.

Lemma replace_keeps_absent (a b x : ascii) (s : string) :
  x <> b ->
  Str.contains (String x EmptyString) s = false ->
  Str.contains (String x EmptyString) (Main.replace a b s) = false.
Proof.
  intros Hne. induction s as [|c s IH]; [done|].
  cbn [Main.replace Str.contains String.prefix].
  intros [Hp Hs]%orb_false_iff. rewrite (IH Hs), orb_false_r.
  destruct (Ascii.eqb c a).
  - by destruct (ascii_dec x b).
  - destruct (ascii_dec x c); [|done]. by rewrite prefix_nil in Hp.
Qed.

(** X17: the identifier in the file name has neither a space nor a slash,
    but the intent is written as it is: the download link names the file
    that was written exactly when the intent has no slash. *)
Theorem download_link_names_file (pq : P.t) :
  Str.contains " " (Main.replace "/" "-"
                      (Main.replace " " "_" (Main.identifier pq))) = false
  /\ Str.contains "/" (Main.replace "/" "-"
                         (Main.replace " " "_" (Main.identifier pq))) = false
  /\ (Main.path_name (Main.excel_filename pq) = Main.excel_filename pq
      <-> Str.contains "/" (Main.intent_str pq) = false).
Proof.
  split; [|split].
  - apply replace_keeps_absent; [done|]. by apply replace_removes.
  - by apply replace_removes.
  - rewrite path_name_id. unfold Main.excel_filename.
    rewrite !contains_char_app, replace_removes by done.
    change (Str.contains "/" "trade_data_") with false.
    change (Str.contains "/" "_") with false.
    change (Str.contains "/" ".xlsx") with false.
    by rewrite !orb_false_l, orb_false_r.
Qed.

End FileNames.


(** ** Edge cases of the recommendation aggregator *)

Section AggregatorEdges.
Import Pandas Aggregator.
Variable float64_sum : list float -> float.

Local Abbreviation frame trade_data :=
  (from_records (map (T.model_dump false) trade_data)).

(** X18: when some record has a volume and no record has a country, the
    grouping by country raises [KeyError], whatever the intent and the
    model's reply. *)
Theorem volume_without_country_raises (trade_data : list T.t) (pq : P.t)
    (response : Json.reply) :
  (exists r, r ∈ trade_data /\ is_Some (T.volume_usd r)) ->
  (forall r, r ∈ trade_data -> T.country r = None) ->
  generate_recommendations float64_sum trade_data pq response = Raise (KeyError "country").
Proof.
  intros Hv Hc. unfold generate_recommendations.
  destruct trade_data as [|r0 l] eqn:Etd;
    [by destruct Hv as (? & ?%elem_of_nil & _)|].
  rewrite <- Etd in *. unfold top_markets.
  by rewrite (proj2 (volume_column trade_data) Hv),
    (top_countries_raise float64_sum _ Hc).
Qed.

Lemma llm_needs_columns (trade_data : list T.t) (response : Json.reply)
    (lbl : string) :
  lbl ∈ llm_columns ->
  (forall r, r ∈ trade_data -> ~ present false r lbl) ->
  llm_recommendations (frame trade_data) response = [].
Proof.
  intros Hl Hnone. unfold llm_recommendations.
  destruct (forallb _ llm_columns) eqn:E; [|done]. exfalso.
  rewrite forallb_forall in E. apply list_elem_of_In, E in Hl.
  apply bool_decide_eq_true, dumped_columns in Hl as (r & Hr & Hp).
  by apply (Hnone r).
Qed.

Lemma model_step_absent (trade_data : list T.t) (pq : P.t)
    (response : Json.reply) :
  (forall r, r ∈ trade_data -> ~ present false r "freight_term") ->
  generate_recommendations float64_sum trade_data pq response
  = generate_recommendations float64_sum trade_data pq Json.CallFailed.
Proof.
  intros Hnone. unfold generate_recommendations.
  destruct trade_data as [|r0 l] eqn:Etd; [done|]. rewrite <- Etd in *.
  assert ("freight_term" ∈ llm_columns) as Hl by (do 3 right; left).
  by rewrite !(llm_needs_columns _ _ _ Hl Hnone).
Qed.

(** X19: the model's reply is used only when each of the seven columns
    of its prompt exists: if one of them has no value in any record, the
    result is the one for a failed model call. *)
Theorem model_step_needs_columns (trade_data : list T.t) (pq : P.t)
    (response : Json.reply) (lbl : string) :
  lbl ∈ llm_columns ->
  (forall r, r ∈ trade_data -> ~ present false r lbl) ->
  generate_recommendations float64_sum trade_data pq response
  = generate_recommendations float64_sum trade_data pq Json.CallFailed.
Proof.
  intros Hl Hnone. unfold generate_recommendations.
  destruct trade_data as [|r0 l] eqn:Etd; [done|]. rewrite <- Etd in *.
  by rewrite !(llm_needs_columns _ _ lbl Hl Hnone).
Qed.

Lemma modal_absent (trade_data : list T.t) (col : string)
    (field : T.t -> option string) (recommend : string -> Recommendation) :
  (forall r, (col, VStr <$> field r) ∈ field_table false r) ->
  (forall r, r ∈ trade_data -> field r = None) ->
  modal (frame trade_data) col recommend = [].
Proof.
  intros Htab Hnone. unfold modal.
  rewrite bool_decide_eq_false_2; [done|].
  intros (r & Hr & Hs)%(column_exists _ _ Htab).
  rewrite (Hnone r Hr) in Hs. by destruct Hs.
Qed.

(** X20: for a non-empty list of records none of which has a volume, a
    freight term or a package type, the result is the single General
    Advice entry, whatever the model replies. *)
Theorem general_advice_fallback (trade_data : list T.t) (pq : P.t)
    (response : Json.reply) :
  trade_data <> [] ->
  (forall r, r ∈ trade_data ->
             T.volume_usd r = None /\ T.freight_term r = None
             /\ T.package_type r = None) ->
  generate_recommendations float64_sum trade_data pq response = Ok [general_advice].
Proof.
  intros Hne Hnone.
  rewrite (model_step_absent trade_data pq response).
  - unfold generate_recommendations.
    destruct trade_data as [|r0 l] eqn:Etd; [done|]. rewrite <- Etd in *.
    rewrite top_markets_skipped by (intros r Hr; by apply Hnone).
    rewrite (modal_absent _ _ T.freight_term _ freight_term_in_table)
      by (intros r Hr; by apply Hnone).
    rewrite (modal_absent _ _ T.package_type _ package_type_in_table)
      by (intros r Hr; by apply Hnone).
    unfold llm_recommendations. by destruct (forallb _ _).
  - intros r Hr Hp.
    apply (present_iff _ _ _ _ (freight_term_in_table r)) in Hp.
    destruct (Hnone r Hr) as (_ & Hf & _). rewrite Hf in Hp. by destruct Hp.
Qed.

End AggregatorEdges.

(** ** The further properties at sample inputs *)

Lemma decide_strategy_mentions_code_witness :
  (4 <= length (Planner.decide_strategy Sample.unicode_lower
                  Sample.unicode_lower Sample.unicode_lower
                  Sample.export_8419_from_india) <= 5)%nat
  /\ Forall (fun q => Str.contains "8419" q = true)
       (Planner.decide_strategy Sample.unicode_lower Sample.unicode_lower
          Sample.unicode_lower Sample.export_8419_from_india).
Proof.
  apply decide_strategy_mentions_code; [reflexivity | discriminate].
Defined.

Lemma decide_strategy_india_witness :
  "DGFT India HSN 8419 export data"
    ∈ Planner.decide_strategy Sample.unicode_lower Sample.unicode_lower
        Sample.unicode_lower Sample.export_8419_from_india
  <-> exists c, P.country Sample.export_8419_from_india = Some c
                /\ Str.lower Sample.unicode_lower c = "india".
Proof.
  apply (decide_strategy_india Sample.unicode_lower Sample.unicode_lower
           Sample.unicode_lower Sample.export_8419_from_india "8419");
    [reflexivity | discriminate].
Defined.

Lemma decide_strategy_direction_witness :
  exists front rest,
    Planner.decide_strategy Sample.unicode_lower Sample.unicode_lower
      Sample.unicode_lower Sample.export_8419_from_india
    = (front ++ "from " ++ "INDIA" ++ " open source statistics")%string :: rest.
Proof.
  apply (decide_strategy_direction Sample.unicode_lower Sample.unicode_lower
           Sample.unicode_lower Sample.export_8419_from_india "INDIA");
    [reflexivity | discriminate | by left].
Defined.

Lemma synthesized_data_aggregates_witness :
  let data := fst (Synthesizer.fetch_data Sample.unicode_lower Sample.hash
                     Sample.netloc Sample.search ["q1"; "q2"] Sample.importing
                     Sample.w0) in
  (data = []
   /\ Aggregator.generate_recommendations Sample.float64_sum data Sample.importing Json.CallFailed
      = Aggregator.Ok [Aggregator.no_data])
  \/ exists details rest,
       Aggregator.generate_recommendations Sample.float64_sum data Sample.importing Json.CallFailed
       = Aggregator.Ok
           (mkRecommendation "Top 3 importing Markets by Volume" details :: rest).
Proof.
  apply (synthesized_data_aggregates Sample.float64_sum Sample.unicode_lower
           Sample.hash Sample.netloc Sample.search ["q1"; "q2"]
           Sample.importing "import").
  reflexivity.
Defined.

Lemma top_markets_are_largest_witness :
  let trade_data :=
    [Sample.market "USA" 10; Sample.market "UK" 20; Sample.market "France" 5;
     Sample.market "Japan" 7; Sample.market "USA" 5] in
  exists top rest,
    Aggregator.generate_recommendations Sample.float64_sum trade_data Sample.importing
      Json.CallFailed
    = Aggregator.Ok
        (mkRecommendation "Top 3 importing Markets by Volume"
           (Aggregator.join ", " (map Aggregator.description_part top)) :: rest)
    /\ NoDup (map fst top)
    /\ forall c, (exists r, r ∈ trade_data /\ T.country r = Some c) ->
         c ∈ map fst top
         \/ (length top = 3%nat
             /\ (Float.is_nan (country_volume Sample.float64_sum trade_data c)
                 = false ->
                 Forall (fun entry =>
                           Float.leb
                             (country_volume Sample.float64_sum trade_data c)
                             (snd entry) = true) top)).
Proof.
  apply (top_markets_are_largest Sample.float64_sum _ Sample.importing
           "import" Json.CallFailed).
  - exists (Sample.market "USA" 10). split; [left | by eexists].
  - exists (Sample.market "USA" 10). split; [left | by eexists].
  - reflexivity.
Defined.

Lemma model_recommendations_well_formed_witness :
  let response :=
    Json.Content
      (Json.JObject
         [("recommendations",
           Json.JArray
             [Json.JObject [("title", Json.JString "Diversify");
                            ("description", Json.JString "Add a market.")];
              Json.JObject [("title", Json.JString "No description")]])]) in
  exists entries o,
    (response = Json.Content (Json.JArray entries)
     \/ exists obj, response = Json.Content (Json.JObject obj)
                    /\ Json.get "recommendations" obj
                       = Some (Json.JArray entries))
    /\ Json.JObject o ∈ entries
    /\ Json.get "title" o = Some (Json.JString "Diversify")
    /\ Json.get "description" o = Some (Json.JString "Add a market.").
Proof.
  apply (model_recommendations_well_formed
           (Pandas.from_records [T.model_dump false Sample.shipment]) _
           (mkRecommendation "Diversify" "Add a market.")).
  vm_compute. left.
Defined.

Lemma parse_query_ill_typed_witness :
  Perceive.parse_query
    (Json.Content
       (Json.JObject [("hsn_code", Json.JNumber 8419);
                      ("intent", Json.JString "import")]))
  = P.empty.
Proof.
  apply (parse_query_ill_typed _ "hsn_code" (Json.JNumber 8419)).
  - reflexivity.
  - left. split; [left | done].
Defined.

Lemma volume_without_country_raises_witness :
  Aggregator.generate_recommendations Sample.float64_sum
    [Sample.volume_only 10; Sample.freight "FOB"] Sample.importing
    Json.CallFailed
  = Aggregator.Raise (Aggregator.KeyError "country").
Proof.
  apply volume_without_country_raises.
  - exists (Sample.volume_only 10). split; [left | by eexists].
  - intros r Hr.
    by repeat (apply elem_of_cons in Hr as [->|Hr]; [done|]);
       apply elem_of_nil in Hr.
Defined.

Lemma model_step_needs_columns_witness :
  Aggregator.generate_recommendations Sample.float64_sum [Sample.market "USA" 10]
    Sample.importing
    (Json.Content
       (Json.JArray
          [Json.JObject [("title", Json.JString "Diversify");
                         ("description", Json.JString "Add a market.")]]))
  = Aggregator.generate_recommendations Sample.float64_sum [Sample.market "USA" 10]
      Sample.importing Json.CallFailed.
Proof.
  apply (model_step_needs_columns _ _ _ _ "shipper_name").
  - do 5 right. left.
  - intros r ->%list_elem_of_singleton [v Hv].
    vm_compute in Hv.
    repeat (apply elem_of_cons in Hv as [Hv|Hv]; [discriminate Hv|]).
    by apply elem_of_nil in Hv.
Defined.

Lemma general_advice_fallback_witness :
  Aggregator.generate_recommendations Sample.float64_sum [T.empty; T.empty] Sample.importing
    Json.CallFailed
  = Aggregator.Ok [Aggregator.general_advice].
Proof.
  apply general_advice_fallback; [discriminate|].
  intros r Hr.
  by repeat (apply elem_of_cons in Hr as [->|Hr]; [done|]);
     apply elem_of_nil in Hr.
Defined.
